(** * OpenDental MCP bridge: tool handlers and widget view-state

    A shallow embedding of [src/index.ts] (the three tool handlers and
    [callBackend]) and of the derived view state of the three widgets
    ([patient-list.tsx], [patient-chart.tsx], [patient-report.tsx]),
    followed by the properties proved about them.

    Conventions.  JavaScript values are the inductive [JS.value];
    numbers are modelled as [Z] (every number the handlers and widgets
    inspect is an integer: status codes, lengths, counts, ages, tooth
    numbers, page indices).  Strings are [string]; [toLowerCase] folds
    the ASCII letters, which is all that matters for the fixed ASCII
    label sets the code compares against; it is
    [String.prototype.toLowerCase] on ASCII text, and the statements
    that depend on the lower-cased text itself are made for ASCII text.
    A JavaScript exception is the [Throw] case of [JS.result].  The
    widgets' functions compute what is handed to the markup (which
    cells, cards and notices, with which data); how React then draws
    those values is outside the embedding. *)

From Stdlib Require Import ZArith String Ascii List Bool Lia DecimalString.
From Stdlib Require Import Sorted Permutation OrdersEx.
From stdpp Require Import gmap strings.

Import ListNotations.
Local Set Warnings "-register-all".
Local Open Scope Z_scope.
Local Open Scope string_scope.

(* ===================================================================== *)
(** ** JavaScript values and the handful of operators the code uses       *)
(* ===================================================================== *)

Module JS.

Inductive value : Type :=
| VUndefined
| VNull
| VBool (b : bool)
| VNum (n : Z)
| VStr (s : string)
| VArr (items : list value)
| VObj (props : list (string * value)).

(** Exceptions that reach a [catch (e)] block; [message] is [e.message]. *)
Inductive exn : Type :=
| Error (msg : string)
| TypeErrorRead (of_null : bool) (prop : string)
| TypeErrorNotFunction (what : string).

Definition message (e : exn) : string :=
  match e with
  | Error m => m
  | TypeErrorRead true p =>
      "Cannot read properties of null (reading '" ++ p ++ "')"
  | TypeErrorRead false p =>
      "Cannot read properties of undefined (reading '" ++ p ++ "')"
  | TypeErrorNotFunction w => w ++ " is not a function"
  end.

Inductive result (A : Type) : Type :=
| Ok (a : A)
| Throw (e : exn).
Arguments Ok {A} a.
Arguments Throw {A} e.

Definition bind {A B} (r : result A) (k : A -> result B) : result B :=
  match r with
  | Ok a => k a
  | Throw e => Throw e
  end.

(** Number to string, as a template literal prints an integer: plain
    decimal digits.  That is what the runtime prints for every safe
    integer (magnitude at most 2^53 - 1); from 1e21 on it switches to
    exponent form, which this does not follow. *)
Definition show_Z (n : Z) : string := NilZero.string_of_int (Z.to_int n).

(** [Number.isSafeInteger] *)
Definition safe_integer (n : Z) : bool := (Z.abs n <=? 9007199254740991)%Z.

(** Own-property lookup in a parsed object: a later duplicate key
    overwrites an earlier one, as [JSON.parse] does. *)
Fixpoint lookup_prop (k : string) (props : list (string * value)) : value :=
  match props with
  | [] => VUndefined
  | (k', v) :: rest =>
      match lookup_prop k rest with
      | VUndefined => if String.eqb k k' then v else VUndefined
      | later => later
      end
  end.

(** [v.k] for the property names the code reads (none of them is an
    array index or a name found on a prototype, [length] apart). *)
Definition get_prop (v : value) (k : string) : result value :=
  match v with
  | VUndefined => Throw (TypeErrorRead false k)
  | VNull => Throw (TypeErrorRead true k)
  | VObj props => Ok (lookup_prop k props)
  | VArr items =>
      Ok (if String.eqb k "length" then VNum (Z.of_nat (List.length items))
          else VUndefined)
  | VStr s =>
      Ok (if String.eqb k "length" then VNum (Z.of_nat (String.length s))
          else VUndefined)
  | VBool _ | VNum _ => Ok VUndefined
  end.

Definition nullish (v : value) : bool :=
  match v with
  | VUndefined | VNull => true
  | _ => false
  end.

(** [v ?? d] with [d] already evaluated. *)
Definition coalesce (v d : value) : value := if nullish v then d else v.

(** [v?.k] *)
Definition get_prop_opt (v : value) (k : string) : result value :=
  if nullish v then Ok VUndefined else get_prop v k.

(** ToBoolean. *)
Definition truthy (v : value) : bool :=
  match v with
  | VUndefined | VNull => false
  | VBool b => b
  | VNum n => negb (n =? 0)%Z
  | VStr s => negb (String.eqb s "")
  | VArr _ | VObj _ => true
  end.

(** ToString, as a template literal applies it. *)
Fixpoint to_string (v : value) : string :=
  match v with
  | VUndefined => "undefined"
  | VNull => "null"
  | VBool true => "true"
  | VBool false => "false"
  | VNum n => show_Z n
  | VStr s => s
  | VArr items =>
      String.concat ","
        (List.map (fun x => if nullish x then "" else to_string x) items)
  | VObj _ => "[object Object]"
  end.

(** A value whose [to_string] is the text the runtime prints: every
    number in it is a safe integer. *)
Fixpoint printable (v : value) : bool :=
  match v with
  | VNum n => safe_integer n
  | VArr items => List.forallb printable items
  | _ => true
  end.

(** Text made of ASCII characters only. *)
Fixpoint is_ascii (s : string) : bool :=
  match s with
  | EmptyString => true
  | String c s' => (N_of_ascii c <? 128)%N && is_ascii s'
  end.

Definition lower_ascii (c : ascii) : ascii :=
  let n := N_of_ascii c in
  if ((65 <=? n) && (n <=? 90))%N then ascii_of_N (n + 32) else c.

(** [s.toLowerCase()], exact on ASCII text: the letters A to Z are
    folded, every other character is kept. *)
Fixpoint toLowerCase (s : string) : string :=
  match s with
  | EmptyString => EmptyString
  | String c s' => String (lower_ascii c) (toLowerCase s')
  end.

(** [s.includes(q)] *)
Fixpoint includes (s q : string) : bool :=
  String.prefix q s ||
  match s with
  | EmptyString => false
  | String _ s' => includes s' q
  end.

(** [a < b] on two strings: code-unit lexicographic order. *)
Definition str_lt (a b : string) : bool := String.ltb a b.

(** [arr.map(f)] and [arr.filter(f)] for a callback that may throw:
    the first exception ends the traversal. *)
Fixpoint mapM {A B : Type} (f : A -> result B) (l : list A) : result (list B) :=
  match l with
  | [] => Ok []
  | x :: l' =>
      bind (f x) (fun y => bind (mapM f l') (fun ys => Ok (y :: ys)))
  end.


End JS.

Import JS.

Notation "'let!' x ':=' r 'in' k" := (JS.bind r (fun x => k))
  (at level 10, x name, r at level 100, k at level 200).

(* ===================================================================== *)
(** ** [src/index.ts]: the backend caller and the three tool handlers     *)
(* ===================================================================== *)

Module Server.

Inductive tool : Type := GetPatients | GetPatientChart | GetReports.

(** [TOOL_TIMEOUTS], in milliseconds. *)
Definition TOOL_TIMEOUTS (t : tool) : Z :=
  match t with
  | GetPatients => 30 * 60000
  | GetPatientChart => 30 * 60000
  | GetReports => 30 * 60000
  end.

(** The default of [callBackend]'s [timeoutMs] parameter. *)
Definition DEFAULT_TIMEOUT : Z := 5 * 60000.

Inductive http_method : Type := GET | POST.

(** What [fetch] is handed: the URL's path and query parameters, the
    method, and the delay after which the abort controller fires. *)
Record request : Type := Request {
  req_path : string;
  req_params : list (string * string);
  req_method : http_method;
  req_timeout : Z
}.

(** What [fetch] resolves to; [res_json] is the outcome of [res.json()]
    (a parse failure throws). *)
Record response : Type := Response {
  res_status : Z;
  res_statusText : string;
  res_json : result value
}.

Definition res_ok (r : response) : bool :=
  ((200 <=? res_status r) && (res_status r <=? 299))%Z.

(** What a handler returns: [widget({props, output: text(..)})] or
    [error(..)]. *)
Inductive tool_result : Type :=
| Widget (props : list (string * value)) (output : string)
| ToolError (msg : string).

Definition NO_CHART : string := "No chart data returned for this patient.".
Definition NO_REPORT : string := "No report data returned for this patient.".

Section Handlers.

(** The network and the backend behind it: a rejected [fetch]
    (network failure, abort on timeout) is a [Throw]. *)
Variable fetch : request -> result response.

Definition callBackend (path : string) (method : option http_method)
    (params : option (list (string * string))) (timeoutMs : option Z)
    : result value :=
  let method' := match method with Some m => m | None => POST end in
  let timeout := match timeoutMs with Some t => t | None => DEFAULT_TIMEOUT end in
  let query := match params with Some ps => ps | None => [] end in
  let! res := fetch (Request path query method' timeout) in
  if negb (res_ok res) then
    Throw (Error ("Backend returned " ++ show_Z (res_status res) ++ ": "
                    ++ res_statusText res))
  else res_json res.

(** [catch (e: any) { return error(prefix + e.message) }] *)
Definition catching (prefix : string) (body : result tool_result)
    : tool_result :=
  match body with
  | Ok r => r
  | Throw e => ToolError (prefix ++ message e)
  end.

(** [json.data ?? json] *)
Definition unwrap (json : value) : result value :=
  let! d := get_prop json "data" in
  Ok (coalesce d json).

Definition get_patients : tool_result :=
  catching "Failed to fetch patients: " (
    let! json := callBackend "/api/patients" (Some POST) None
              (Some (TOOL_TIMEOUTS GetPatients)) in
    let! data := unwrap json in
    let! p := get_prop data "patients" in
    let patients := coalesce p (VArr []) in
    let! tc := get_prop data "total_count" in
    let! totalCount := (if nullish tc then get_prop patients "length" else Ok tc) in
    Ok (Widget [("patients", patients); ("totalCount", totalCount)]
          ("Found " ++ to_string totalCount
             ++ " patient(s). Use the table to browse or click a patient for details."))).

Definition get_patient_chart (patient_name : string) : tool_result :=
  catching "Failed to fetch chart: " (
    let! json := callBackend "/api/patient_chart" (Some POST)
              (Some [("patient_name", patient_name)])
              (Some (TOOL_TIMEOUTS GetPatientChart)) in
    let! data := unwrap json in
    let! chart := get_prop data "patient_chart" in
    if negb (truthy chart) then Ok (ToolError NO_CHART) else
    let! summary := get_prop chart "summary" in
    let! w := get_prop_opt summary "total_teeth_with_work" in
    let! summary' := get_prop chart "summary" in
    let! m := get_prop_opt summary' "missing_teeth_count" in
    Ok (Widget [("chart", chart); ("patientName", VStr patient_name)]
          ("Dental chart for " ++ patient_name ++ ": "
             ++ to_string (coalesce w (VNum 0)) ++ " teeth with work, "
             ++ to_string (coalesce m (VNum 0)) ++ " missing."))).

Definition get_reports (patient_name : string) : tool_result :=
  catching "Failed to fetch report: " (
    let! json := callBackend "/api/reports" (Some POST)
              (Some [("patient_name", patient_name)])
              (Some (TOOL_TIMEOUTS GetReports)) in
    let! data := unwrap json in
    let! report := get_prop data "patient_report" in
    if negb (truthy report) then Ok (ToolError NO_REPORT) else
    let! summary := get_prop report "summary" in
    let! b := get_prop_opt summary "total_outstanding_balance" in
    let! summary' := get_prop report "summary" in
    let! c := get_prop_opt summary' "pending_insurance_claims" in
    Ok (Widget [("report", report); ("patientName", VStr patient_name)]
          ("Report for " ++ patient_name ++ ": balance $"
             ++ to_string (coalesce b (VNum 0)) ++ ", "
             ++ to_string (coalesce c (VNum 0)) ++ " pending claims."))).

(** The handler registered under each tool name; [get-patients] takes
    no argument. *)
Definition handler (t : tool) (patient_name : string) : tool_result :=
  match t with
  | GetPatients => get_patients
  | GetPatientChart => get_patient_chart patient_name
  | GetReports => get_reports patient_name
  end.

End Handlers.

(** The one request each tool's handler hands to [fetch]. *)
Definition request_of (t : tool) (patient_name : string) : request :=
  match t with
  | GetPatients =>
      Request "/api/patients" [] POST (TOOL_TIMEOUTS GetPatients)
  | GetPatientChart =>
      Request "/api/patient_chart" [("patient_name", patient_name)] POST
        (TOOL_TIMEOUTS GetPatientChart)
  | GetReports =>
      Request "/api/reports" [("patient_name", patient_name)] POST
        (TOOL_TIMEOUTS GetReports)
  end.

(** The sub-object each tool promises, and the message its handler
    returns when that sub-object is missing ([get-patients] has none). *)
Definition expected_field (t : tool) : string :=
  match t with
  | GetPatients => "patients"
  | GetPatientChart => "patient_chart"
  | GetReports => "patient_report"
  end.

Definition no_data_message (t : tool) : option string :=
  match t with
  | GetPatients => None
  | GetPatientChart => Some NO_CHART
  | GetReports => Some NO_REPORT
  end.

(** The prefix each handler's [catch] puts before [e.message]. *)
Definition failure_prefix (t : tool) : string :=
  match t with
  | GetPatients => "Failed to fetch patients: "
  | GetPatientChart => "Failed to fetch chart: "
  | GetReports => "Failed to fetch report: "
  end.

End Server.

(* ===================================================================== *)
(** ** Array operations of the runtime that the widgets call              *)
(* ===================================================================== *)

Module JSArray.

Section Sort.
Context {A : Type}.
Variable compareFn : A -> A -> Z.

(** [insert x l] places [x] in front of the first element it does not
    compare greater than. *)
Fixpoint insert (x : A) (l : list A) : list A :=
  match l with
  | [] => [x]
  | y :: l' =>
      if (compareFn x y <=? 0)%Z then x :: y :: l' else y :: insert x l'
  end.

(** [arr.sort(compareFn)] on a copy.  ECMAScript requires the sort
    to be stable and, for a consistent comparator, to return the
    elements in comparator order; that fixes the result (lemma
    [sort_unique] below), which stable insertion computes. *)
Fixpoint sort (l : list A) : list A :=
  match l with
  | [] => []
  | x :: l' => insert x (sort l')
  end.
End Sort.

(** [arr.slice(start, end)], negative indices counting from the end. *)
Definition slice {A : Type} (l : list A) (start stop : Z) : list A :=
  let len := Z.of_nat (List.length l) in
  let rel i := if (i <? 0)%Z then Z.max (len + i) 0 else Z.min i len in
  let k := rel start in
  let final := rel stop in
  firstn (Z.to_nat (final - k)) (skipn (Z.to_nat k) l).

(** [Math.ceil(n / d)] for a length [n] and a positive page size [d]. *)
Definition ceil_div (n d : Z) : Z := ((n + d - 1) / d)%Z.

End JSArray.

(* ===================================================================== *)
(** ** [src/resources/patient-list.tsx]                                   *)
(* ===================================================================== *)

Module PatientList.

(** [patientSchema]; [None] is a field that is [null] or absent. *)
Record Patient : Type := {
  patient_id : option Z;
  first_name : string;
  last_name : string;
  age : option Z;
  wireless_phone : option string;
  home_phone : option string;
  work_phone : option string;
  address : option string;
  city : option string;
  status : option string
}.

Inductive SortKey : Type :=
| K_last_name | K_first_name | K_age | K_city | K_status.

Inductive SortDir : Type := asc | desc.

Definition PAGE_SIZE : Z := 10.

(** [a || rest] for an optional string: the first non-empty one wins. *)
Definition or_else (a : option string) (rest : string) : string :=
  match a with
  | Some s => if String.eqb s "" then rest else s
  | None => rest
  end.

(** [x ?? ""] *)
Definition or_empty (a : option string) : string :=
  match a with Some s => s | None => "" end.

Definition phone_of (p : Patient) : string :=
  or_else (wireless_phone p) (or_else (home_phone p) (or_else (work_phone p) "")).

(** The predicate handed to [props.patients.filter], [q] being the
    lower-cased search text. *)
Definition matches (q : string) (p : Patient) : bool :=
  String.eqb q ""
  || includes (toLowerCase (first_name p ++ " " ++ last_name p)) q
  || includes (toLowerCase (or_empty (city p))) q
  || includes (toLowerCase (phone_of p)) q.

Definition filterBy (search : string) (patients : list Patient) : list Patient :=
  List.filter (matches (toLowerCase search)) patients.

(** [filtered]: empty while [props?.patients] is missing. *)
Definition filtered (patients : option (list Patient)) (search : string)
    : list Patient :=
  match patients with
  | None => []
  | Some ps => filterBy search ps
  end.

(** [a[sortKey]] for the four string keys. *)
Definition string_field (k : SortKey) (p : Patient) : option string :=
  match k with
  | K_last_name => Some (last_name p)
  | K_first_name => Some (first_name p)
  | K_city => city p
  | K_status => status p
  | K_age => None
  end.

(** [a.age ?? 0] *)
Definition age_key (p : Patient) : Z :=
  match age p with Some n => n | None => 0 end.

(** [(a[sortKey] ?? "").toString().toLowerCase()] *)
Definition string_key (k : SortKey) (p : Patient) : string :=
  toLowerCase (or_empty (string_field k p)).

Definition when_less (d : SortDir) : Z :=
  match d with asc => -1 | desc => 1 end.
Definition when_greater (d : SortDir) : Z :=
  match d with asc => 1 | desc => -1 end.

(** The comparator handed to [sort]. *)
Definition compareFn (sortKey : SortKey) (sortDir : SortDir)
    (a b : Patient) : Z :=
  match sortKey with
  | K_age =>
      let av := age_key a in
      let bv := age_key b in
      if (av <? bv)%Z then when_less sortDir
      else if (bv <? av)%Z then when_greater sortDir
      else 0
  | _ =>
      let av := string_key sortKey a in
      let bv := string_key sortKey b in
      if str_lt av bv then when_less sortDir
      else if str_lt bv av then when_greater sortDir
      else 0
  end.

(** *** The order as the specification words it

    Numeric on the age key; on the other keys lexicographic on the text
    of the field with the case of letters ignored.  None of this goes
    through [string_key] or [age_key]. *)

(** The code a character compares by when case is ignored: a capital
    letter stands for its small letter. *)
Definition fold_case (c : ascii) : N :=
  let n := N_of_ascii c in
  if ((65 <=? n) && (n <=? 90))%N then (n + 32)%N else n.

(** Lexicographic comparison, character by character, ignoring case. *)
Fixpoint compare_ignoring_case (s t : string) : comparison :=
  match s, t with
  | EmptyString, EmptyString => Eq
  | EmptyString, String _ _ => Lt
  | String _ _, EmptyString => Gt
  | String a s', String b t' =>
      match N.compare (fold_case a) (fold_case b) with
      | Eq => compare_ignoring_case s' t'
      | r => r
      end
  end.



(** The text of a patient under a string key, empty when the field is
    missing. *)
Definition key_text (k : SortKey) (p : Patient) : string :=
  match k with
  | K_last_name => last_name p
  | K_first_name => first_name p
  | K_city => match city p with Some s => s | None => "" end
  | K_status => match status p with Some s => s | None => "" end
  | K_age => ""
  end.

Definition key_order (k : SortKey) (a b : Patient) : comparison :=
  match k with
  | K_age =>
      Z.compare (match age a with Some n => n | None => 0%Z end)
                (match age b with Some n => n | None => 0%Z end)
  | _ => compare_ignoring_case (key_text k a) (key_text k b)
  end.

(** [x] ties with [a] under the comparator. *)
Definition tied (k : SortKey) (d : SortDir) (a x : Patient) : bool :=
  (compareFn k d a x =? 0)%Z.

Definition sortBy (sortKey : SortKey) (sortDir : SortDir)
    (l : list Patient) : list Patient :=
  JSArray.sort (compareFn sortKey sortDir) l.

Record State : Type := {
  search : string;
  sortKey : SortKey;
  sortDir : SortDir;
  page : Z
}.

Definition initial : State :=
  {| search := ""; sortKey := K_last_name; sortDir := asc; page := 1 |}.

(** [sorted] *)
Definition sorted (patients : option (list Patient)) (s : State) : list Patient :=
  sortBy (sortKey s) (sortDir s) (filtered patients (search s)).

(** [totalPages] and [safePage], from the number of rows to show. *)
Definition totalPages (rows : Z) : Z :=
  Z.max 1 (JSArray.ceil_div rows PAGE_SIZE).
Definition safePage (pg rows : Z) : Z := Z.min pg (totalPages rows).

Definition rows_of (patients : option (list Patient)) (s : State) : Z :=
  Z.of_nat (List.length (sorted patients s)).

Definition pageData (patients : option (list Patient)) (s : State)
    : list Patient :=
  let sp := safePage (page s) (rows_of patients s) in
  JSArray.slice (sorted patients s) ((sp - 1) * PAGE_SIZE) (sp * PAGE_SIZE).

Definition SortKey_eqb (a b : SortKey) : bool :=
  match a, b with
  | K_last_name, K_last_name | K_first_name, K_first_name
  | K_age, K_age | K_city, K_city | K_status, K_status => true
  | _, _ => false
  end.

(** [toggleSort] *)
Definition toggleSort (key : SortKey) (s : State) : State :=
  if SortKey_eqb (sortKey s) key then
    {| search := search s; sortKey := sortKey s;
       sortDir := match sortDir s with asc => desc | desc => asc end;
       page := page s |}
  else
    {| search := search s; sortKey := key; sortDir := asc; page := page s |}.

(** What the user can do to the widget. *)
Inductive event : Type :=
| Search (text : string)
| ToggleSort (key : SortKey)
| PrevPage
| NextPage.

(** One event, handled against the rows on display when it fires.  The
    pager exists only when [totalPages > 1], and a [disabled] button
    delivers no click. *)
Definition handle (patients : option (list Patient)) (ev : event)
    (s : State) : State :=
  let rows := rows_of patients s in
  let sp := safePage (page s) rows in
  let setPage pg :=
    {| search := search s; sortKey := sortKey s; sortDir := sortDir s;
       page := pg |} in
  match ev with
  | Search text =>
      {| search := text; sortKey := sortKey s; sortDir := sortDir s;
         page := 1 |}
  | ToggleSort key => toggleSort key s
  | PrevPage =>
      if (1 <? totalPages rows)%Z && negb (sp <=? 1)%Z
      then setPage (sp - 1)%Z else s
  | NextPage =>
      if (1 <? totalPages rows)%Z && negb (totalPages rows <=? sp)%Z
      then setPage (sp + 1)%Z else s
  end.

(** A session: each event comes with the props in force when it fires
    (the host may replace them between events). *)
Definition run (trace : list (option (list Patient) * event)) : State :=
  fold_left (fun s pe => handle (fst pe) (snd pe) s) trace initial.


(** The state with another page number, as [setPage] leaves it. *)
Definition setPage (pg : Z) (s : State) : State :=
  {| search := search s; sortKey := sortKey s; sortDir := sortDir s;
     page := pg |}.

End PatientList.

(* ===================================================================== *)
(** ** [src/resources/patient-report.tsx]: the account tab's pager         *)
(* ===================================================================== *)

Module PatientReport.

Inductive Tab : Type :=
| overview | family | insurance | account | treatment | appointments.

Definition perPage : Z := 15.

Record State : Type := { tab : Tab; acctPage : Z }.

Definition initial : State := {| tab := overview; acctPage := 1 |}.

(** [account.transactions ?? []], the rows being arbitrary values. *)
Definition transactions_of (txs : option (list value)) : list value :=
  match txs with Some l => l | None => [] end.

Definition totalPages (rows : Z) : Z :=
  Z.max 1 (JSArray.ceil_div rows perPage).
Definition safePage (pg rows : Z) : Z := Z.min pg (totalPages rows).

Definition rows_of (txs : option (list value)) : Z :=
  Z.of_nat (List.length (transactions_of txs)).

Definition pageTx (txs : option (list value)) (s : State) : list value :=
  let sp := safePage (acctPage s) (rows_of txs) in
  JSArray.slice (transactions_of txs) ((sp - 1) * perPage) (sp * perPage).

Inductive event : Type :=
| SetTab (t : Tab)
| PrevPage
| NextPage.

Definition on_account (s : State) : bool :=
  match tab s with account => true | _ => false end.

(** The pager is rendered by [renderAccount] only, and only when
    [totalPages > 1]; a [disabled] button delivers no click. *)
Definition handle (txs : option (list value)) (ev : event) (s : State)
    : State :=
  let rows := rows_of txs in
  let sp := safePage (acctPage s) rows in
  match ev with
  | SetTab t => {| tab := t; acctPage := acctPage s |}
  | PrevPage =>
      if on_account s && (1 <? totalPages rows)%Z && negb (sp <=? 1)%Z
      then {| tab := tab s; acctPage := (sp - 1)%Z |} else s
  | NextPage =>
      if on_account s && (1 <? totalPages rows)%Z
         && negb (totalPages rows <=? sp)%Z
      then {| tab := tab s; acctPage := (sp + 1)%Z |} else s
  end.

Definition run (trace : list (option (list value) * event)) : State :=
  fold_left (fun s pe => handle (fst pe) (snd pe) s) trace initial.

(** *** The insurance tab *)

(** What [renderPlan] shows of a plan. *)
Record PlanCard : Type := {
  card_title : string;
  card_carrier : value;
  card_coverage : value
}.

(** [renderPlan]: [null] unless the plan and its carrier are truthy. *)
Definition renderPlan (plan : value) (title : string) : result (option PlanCard) :=
  if negb (truthy plan) then Ok None else
  let! carrier := get_prop plan "carrier" in
  if negb (truthy carrier) then Ok None else
  let! cov := get_prop plan "coverage_percentages" in
  Ok (Some {| card_title := title; card_carrier := carrier;
              card_coverage := coalesce cov (VObj []) |}).

(** What [renderInsurance] decides: which of the two plan cards it
    produces, with which data, and whether it produces the
    "No insurance information on file." notice.  Drawing the card's
    values is left to the markup. *)
Record InsuranceView : Type := {
  primary_card : option PlanCard;
  secondary_card : option PlanCard;
  no_insurance_notice : bool
}.

(** [!insurance.primary?.carrier && !insurance.secondary?.carrier] *)
Definition no_carrier (insurance : value) : result bool :=
  let! p := get_prop insurance "primary" in
  let! pc := get_prop_opt p "carrier" in
  if truthy pc then Ok false else
  let! s := get_prop insurance "secondary" in
  let! sc := get_prop_opt s "carrier" in
  Ok (negb (truthy sc)).

Definition renderInsurance (insurance : value) : result InsuranceView :=
  let! p := get_prop insurance "primary" in
  let! card1 := renderPlan p "Primary Insurance" in
  let! s := get_prop insurance "secondary" in
  let! card2 := renderPlan s "Secondary Insurance" in
  let! notice := no_carrier insurance in
  Ok {| primary_card := card1; secondary_card := card2;
        no_insurance_notice := notice |}.

(** [report?.insurance ?? {}] *)
Definition insurance_of (report : value) : result value :=
  let! i := get_prop_opt report "insurance" in
  Ok (coalesce i (VObj [])).

(** *** Coverage labels *)

(** [\w]: an ASCII letter, digit or underscore. *)
Definition is_word (c : ascii) : bool :=
  let n := N_of_ascii c in
  (((65 <=? n) && (n <=? 90)) || ((97 <=? n) && (n <=? 122))
   || ((48 <=? n) && (n <=? 57)) || (n =? 95))%N.

(** [l.toUpperCase()] for a single [\w] character. *)
Definition upper_ascii (c : ascii) : ascii :=
  let n := N_of_ascii c in
  if ((97 <=? n) && (n <=? 122))%N then ascii_of_N (n - 32) else c.

(** [k.replace(/_/g, " ")] *)
Fixpoint underscores_to_spaces (s : string) : string :=
  match s with
  | EmptyString => EmptyString
  | String c s' =>
      String (if Ascii.eqb c "_" then " "%char else c) (underscores_to_spaces s')
  end.

(** [s.replace(/\b\w/g, (l) => l.toUpperCase())]: a word character is
    replaced when the character before it is not one; [after_word]
    tells whether the previous character was a word character. *)
Fixpoint capitalize_from (after_word : bool) (s : string) : string :=
  match s with
  | EmptyString => EmptyString
  | String c s' =>
      let w := is_word c in
      String (if w && negb after_word then upper_ascii c else c)
        (capitalize_from w s')
  end.

Definition capitalize_words (s : string) : string := capitalize_from false s.

(** The label a coverage key is shown under. *)
Definition coverageLabel (k : string) : string :=
  capitalize_words (underscores_to_spaces k).

(** The coverage lines of a plan card, from [Object.entries(cov)]: an
    entry with a falsy value renders nothing. *)
Definition coverageRows (entries : list (string * value)) : list (string * value) :=
  List.map (fun kv => (coverageLabel (fst kv), snd kv))
    (List.filter (fun kv => truthy (snd kv)) entries).

(** The state with another account page, as [setAcctPage] leaves it. *)
Definition setAcctPage (pg : Z) (s : State) : State :=
  {| tab := tab s; acctPage := pg |}.

End PatientReport.

(* ===================================================================== *)
(** ** [src/resources/patient-chart.tsx]: the tooth grid                  *)
(* ===================================================================== *)

Module PatientChart.

Inductive Theme : Type := dark | light.

(** The object [useColors] returns. *)
Record Colors : Type := {
  bg : string; card : string; text : string; textSecondary : string;
  border : string; accent : string; headerBg : string; inputBg : string;
  tabActive : string; tabInactive : string;
  healthy : string; missing : string; crown : string; filling : string;
  decay : string; rootCanal : string; implant : string; other : string
}.

Definition useColors (theme : Theme) : Colors :=
  let pick (d l : string) := match theme with dark => d | light => l end in
  {| bg := pick "#1a1a2e" "#ffffff";
     card := pick "#16213e" "#f8f9fa";
     text := pick "#e0e0e0" "#1a1a1a";
     textSecondary := pick "#a0a0a0" "#666666";
     border := pick "#2a2a4a" "#e0e0e0";
     accent := pick "#4a9eff" "#0066cc";
     headerBg := pick "#0f3460" "#f0f4f8";
     inputBg := pick "#0f1b30" "#ffffff";
     tabActive := pick "#4a9eff" "#0066cc";
     tabInactive := pick "#2a2a4a" "#e9ecef";
     healthy := pick "#2d6a4f" "#28a745";
     missing := pick "#6c757d" "#adb5bd";
     crown := pick "#2563eb" "#007bff";
     filling := pick "#ca8a04" "#ffc107";
     decay := pick "#dc2626" "#dc3545";
     rootCanal := pick "#7c3aed" "#6f42c1";
     implant := pick "#0d9488" "#20c997";
     other := pick "#a0a0a0" "#6c757d" |}.

(** [(colors as any)[key]] *)
Definition color_field (c : Colors) (key : string) : option string :=
  let fields :=
    [("bg", bg c); ("card", card c); ("text", text c);
     ("textSecondary", textSecondary c); ("border", border c);
     ("accent", accent c); ("headerBg", headerBg c);
     ("inputBg", inputBg c); ("tabActive", tabActive c);
     ("tabInactive", tabInactive c); ("healthy", healthy c);
     ("missing", missing c); ("crown", crown c); ("filling", filling c);
     ("decay", decay c); ("rootCanal", rootCanal c);
     ("implant", implant c); ("other", other c)] in
  option_map snd (List.find (fun kv => String.eqb (fst kv) key) fields).

Record ConditionInfo : Type := { label : string; key : string }.

(** [CONDITION_MAP], as the object literal lists it. *)
Definition CONDITION_MAP : list (string * ConditionInfo) :=
  [("healthy", {| label := "Healthy"; key := "healthy" |});
   ("missing", {| label := "Missing"; key := "missing" |});
   ("crown", {| label := "Crown"; key := "crown" |});
   ("filling", {| label := "Filling"; key := "filling" |});
   ("decay", {| label := "Decay"; key := "decay" |});
   ("root canal", {| label := "Root Canal"; key := "rootCanal" |});
   ("rootcanal", {| label := "Root Canal"; key := "rootCanal" |});
   ("implant", {| label := "Implant"; key := "implant" |})].

(** [CONDITION_MAP[name]?.key]: a name inherited from the object
    prototype carries no [key], so it reads as absent too. *)
Definition condition_key (name : string) : option string :=
  option_map (fun kv => key (snd kv))
    (List.find (fun kv => String.eqb (fst kv) name) CONDITION_MAP).

Definition getConditionColor (condition : string) (colors : Colors) : string :=
  let k := match condition_key (toLowerCase condition) with
           | Some k => k
           | None => "other"
           end in
  match color_field colors k with
  | Some col => col
  | None => other colors
  end.

(** An element of [teeth_with_conditions]: [tooth_number] is the
    numeric key that [Record<number, any>] declares, [condition] is
    whatever the payload holds there ([VUndefined] when absent). *)
Record ToothEntry : Type := { tooth_number : Z; condition : value }.

(** [toothMap]: each entry is stored under its tooth number, a later
    one overwriting an earlier one. *)
Definition toothMap (teethConditions : list ToothEntry) : gmap Z ToothEntry :=
  fold_left (fun m t => <[tooth_number t := t]> m) teethConditions ∅.

(** What [renderTooth] puts on screen for one tooth. *)
Record ToothView : Type := {
  view_num : Z;
  view_condition : string;
  view_color : string;
  view_dashed : bool;
  view_selected : bool
}.

(** [data?.condition?.toLowerCase() ?? "healthy"] *)
Definition condition_of (data : option ToothEntry) : result string :=
  match data with
  | None => Ok "healthy"
  | Some t =>
      match condition t with
      | VUndefined | VNull => Ok "healthy"
      | VStr s => Ok (toLowerCase s)
      | _ => Throw (TypeErrorNotFunction "data?.condition?.toLowerCase")
      end
  end.

Definition renderTooth (c : Colors) (m : gmap Z ToothEntry)
    (selectedTooth : option Z) (num : Z) : result ToothView :=
  let data := m !! num in
  let! cond := condition_of data in
  let color := getConditionColor cond c in
  let isSelected := match selectedTooth with
                    | Some n => (n =? num)%Z
                    | None => false
                    end in
  Ok {| view_num := num; view_condition := cond; view_color := color;
        view_dashed := String.eqb cond "missing";
        view_selected := isSelected |}.

Definition upper : list Z := List.map (fun i => Z.of_nat i + 1)%Z (seq 0 16).
Definition lower : list Z := List.map (fun i => 32 - Z.of_nat i)%Z (seq 0 16).

(** The teeth [renderToothGrid] draws, upper arch first. *)
Definition grid_teeth : list Z := upper ++ lower.

(** The condition-to-colour table as the specification words it:
    each label of the fixed set names its palette entry, anything else
    takes the [other] entry. *)
Definition table_color (c : Colors) (lowered : string) : string :=
  if String.eqb lowered "healthy" then healthy c
  else if String.eqb lowered "missing" then missing c
  else if String.eqb lowered "crown" then crown c
  else if String.eqb lowered "filling" then filling c
  else if String.eqb lowered "decay" then decay c
  else if String.eqb lowered "root canal" then rootCanal c
  else if String.eqb lowered "rootcanal" then rootCanal c
  else if String.eqb lowered "implant" then implant c
  else other c.

(** The last entry of a payload that names tooth [n]. *)
Definition last_entry (n : Z) (l : list ToothEntry) : option ToothEntry :=
  List.find (fun t => (tooth_number t =? n)%Z) (rev l).

(** *** Selecting a tooth *)

(** The click handler of a tooth cell:
    [setSelectedTooth(isSelected ? null : num)]. *)
Definition clickTooth (selectedTooth : option Z) (num : Z) : option Z :=
  let isSelected := match selectedTooth with
                    | Some n => (n =? num)%Z
                    | None => false
                    end in
  if isSelected then None else Some num.

(** [selectedTooth ? toothMap[selectedTooth] : null]; the detail panel
    is rendered when this is an entry. *)
Definition selectedData (m : gmap Z ToothEntry) (selectedTooth : option Z)
    : option ToothEntry :=
  match selectedTooth with
  | Some n => if (n =? 0)%Z then None else m !! n
  | None => None
  end.

(** What [renderToothGrid] works out before the markup: the cells of
    the two arches and the entry the detail panel is opened on.  The
    legend, the panel's own children and the quadrant cards are not
    part of it. *)
Record GridView : Type := {
  upper_cells : list ToothView;
  lower_cells : list ToothView;
  detail : option ToothEntry
}.

Definition renderToothGrid (c : Colors) (m : gmap Z ToothEntry)
    (selectedTooth : option Z) : result GridView :=
  let! u := mapM (renderTooth c m selectedTooth) upper in
  let! lo := mapM (renderTooth c m selectedTooth) lower in
  Ok {| upper_cells := u; lower_cells := lo;
        detail := selectedData m selectedTooth |}.

(** *** The procedures tab *)





End PatientChart.

(* ===================================================================== *)
(** * Properties                                                          *)
(* ===================================================================== *)

(** ** Strings *)

Lemma prefix_app (q b : string) : String.prefix q (q ++ b) = true.
Proof.
  induction q as [|c q IH]; simpl.
  - now destruct b.
  - destruct (ascii_dec c c); [exact IH | congruence].
Qed.

Lemma includes_of_prefix (s q : string) :
  String.prefix q s = true -> includes s q = true.
Proof. intros H. destruct s; simpl in *; now rewrite H. Qed.

Lemma includes_app (a q b : string) : includes (a ++ q ++ b) q = true.
Proof.
  induction a as [|c a IH].
  - change ("" ++ q ++ b) with (q ++ b).
    apply includes_of_prefix, prefix_app.
  - change (String c a ++ q ++ b) with (String c (a ++ q ++ b)).
    simpl. rewrite IH. apply orb_true_r.
Qed.

Lemma string_app_assoc (a b c : string) : (a ++ b) ++ c = a ++ b ++ c.
Proof.
  induction a as [|x a IH]; [reflexivity |].
  change (String x ((a ++ b) ++ c) = String x (a ++ b ++ c)).
  now rewrite IH.
Qed.

(** ** The tool handlers *)

Section ServerFacts.
Import Server.
Variable fetch : request -> result response.

(** A handler consults the network once, with its tool's request. *)
Lemma handler_once (t : tool) (name : string) :
  handler fetch t name =
  handler (fun _ => fetch (request_of t name)) t name.
Proof. destruct t; reflexivity. Qed.

Lemma callBackend_parsed (res : response) (json : value) path m ps tm :
  res_ok res = true -> res_json res = Ok json ->
  callBackend (fun _ => Ok res) path m ps tm = Ok json.
Proof.
  intros Hok Hjson. unfold callBackend, bind. now rewrite Hok.
Qed.

Lemma callBackend_status (res : response) path m ps tm :
  res_ok res = false ->
  callBackend (fun _ => Ok res) path m ps tm =
  Throw (Error ("Backend returned " ++ show_Z (res_status res) ++ ": "
                  ++ res_statusText res)).
Proof.
  intros Hok. unfold callBackend, bind. now rewrite Hok.
Qed.

End ServerFacts.

Lemma unwrap_not_nullish (json data : value) :
  Server.unwrap json = Ok data -> nullish data = false.
Proof.
  unfold Server.unwrap, bind, coalesce.
  destruct json; simpl; try discriminate; intros H; inversion H; subst; clear H.
  all: try reflexivity.
  destruct (nullish (lookup_prop "data" props)) eqn:E; [reflexivity | exact E].
Qed.

Lemma handler_fetched (fetch : Server.request -> result Server.response)
    (t : Server.tool) (name : string) (res : Server.response) :
  fetch (Server.request_of t name) = Ok res ->
  Server.handler fetch t name = Server.handler (fun _ => Ok res) t name.
Proof.
  intros H.
  destruct t;
    cbv [Server.handler Server.get_patients Server.get_patient_chart
         Server.get_reports Server.callBackend Server.request_of] in *;
    rewrite H; reflexivity.
Qed.

(** Reading [json.data ?? json] throws on [null] only, among the values
    [res.json()] resolves to, and what it yields is never nullish, so the
    read of the promised field that follows cannot throw. *)
Lemma unwrap_reads (json : value) (k : string) :
  nullish json = false ->
  exists data sub : value,
    Server.unwrap json = Ok data /\ get_prop data k = Ok sub.
Proof.
  intros Hjson.
  assert (Hd : exists data, Server.unwrap json = Ok data).
  { destruct json; try discriminate Hjson; eexists; reflexivity. }
  destruct Hd as [data Hd]. exists data.
  pose proof (unwrap_not_nullish _ _ Hd) as Hn.
  destruct data; try discriminate Hn; eexists; split; try exact Hd; reflexivity.
Qed.

(** C1, as the code has it.  For every successfully parsed response to
    get-patient-chart (resp. get-reports) other than the JSON value
    [null], [json.data ?? json] and the read of [patient_chart] (resp.
    [patient_report]) from it both evaluate; and when the sub-object is
    missing -- the read gives [undefined], or more generally any falsy
    value -- the handler returns exactly the tool's "no data" message,
    which is none of the strings the handler's [catch] block can produce
    for a thrown exception. *)
Theorem missing_subobject_message :
  forall (fetch : Server.request -> result Server.response)
         (t : Server.tool) (name msg : string)
         (res : Server.response) (json : value),
    Server.no_data_message t = Some msg ->
    fetch (Server.request_of t name) = Ok res ->
    Server.res_ok res = true ->
    Server.res_json res = Ok json ->
    nullish json = false ->
    exists data sub : value,
      Server.unwrap json = Ok data
      /\ get_prop data (Server.expected_field t) = Ok sub
      /\ (truthy sub = false ->
          Server.handler fetch t name = Server.ToolError msg)
      /\ (forall e : exn, msg <> Server.failure_prefix t ++ message e).
Proof.
  intros fetch t name msg res json Hmsg Hfetch Hok Hjson Hnn.
  destruct (unwrap_reads json (Server.expected_field t) Hnn)
    as (data & sub & Hun & Hsub).
  exists data, sub. split; [exact Hun |]. split; [exact Hsub |].
  rewrite (handler_fetched _ _ _ _ Hfetch).
  destruct t; simpl in Hmsg; inversion Hmsg; subst msg; clear Hmsg;
    simpl in Hsub; split.
  - intros Hfalsy. unfold Server.handler, Server.get_patient_chart.
    rewrite (callBackend_parsed res json) by assumption.
    cbn [bind]. rewrite Hun. cbn [bind]. rewrite Hsub. cbn [bind].
    now rewrite Hfalsy.
  - intros e H. cbv [Server.NO_CHART Server.failure_prefix String.append] in H.
    discriminate H.
  - intros Hfalsy. unfold Server.handler, Server.get_reports.
    rewrite (callBackend_parsed res json) by assumption.
    cbn [bind]. rewrite Hun. cbn [bind]. rewrite Hsub. cbn [bind].
    now rewrite Hfalsy.
  - intros e H. cbv [Server.NO_REPORT Server.failure_prefix String.append] in H.
    discriminate H.
Qed.

Lemma missing_subobject_message_witness :
  let json := VObj [("data", VObj [("status", VStr "not found")])] in
  let fetch := fun _ : Server.request =>
                 Ok (Server.Response 200 "OK" (Ok json)) in
  Server.handler fetch Server.GetPatientChart "Jane Doe"
  = Server.ToolError "No chart data returned for this patient."
  /\ (forall e : exn,
        "No chart data returned for this patient."
        <> Server.failure_prefix Server.GetPatientChart ++ message e).
Proof.
  intros json fetch.
  destruct (missing_subobject_message fetch Server.GetPatientChart "Jane Doe"
              Server.NO_CHART (Server.Response 200 "OK" (Ok json)) json
              eq_refl eq_refl eq_refl eq_refl eq_refl)
    as (data & sub & Hun & Hsub & Hmsg & Hne).
  split; [| exact Hne]. apply Hmsg.
  injection Hun as <-. injection Hsub as <-. reflexivity.
Defined.

(** C1 as worded fails on the body [null]: the response is a success and
    parses, nothing in it is a chart or a report, yet [json.data] throws
    and both handlers answer from their [catch] block with the wrapped
    exception text, not with their "no data" message. *)
Lemma null_body_not_no_data :
  let res := Server.Response 200 "OK" (Ok VNull) in
  let fetch := fun _ : Server.request => Ok res in
  Server.res_ok res = true
  /\ Server.res_json res = Ok VNull
  /\ Server.unwrap VNull = Throw (TypeErrorRead true "data")
  /\ Server.handler fetch Server.GetPatientChart "Jane Doe"
     = Server.ToolError
         "Failed to fetch chart: Cannot read properties of null (reading 'data')"
  /\ Server.handler fetch Server.GetPatientChart "Jane Doe"
     = Server.ToolError (Server.failure_prefix Server.GetPatientChart
                           ++ message (TypeErrorRead true "data"))
  /\ Server.handler fetch Server.GetPatientChart "Jane Doe"
     <> Server.ToolError Server.NO_CHART
  /\ Server.handler fetch Server.GetReports "Jane Doe"
     = Server.ToolError
         "Failed to fetch report: Cannot read properties of null (reading 'data')"
  /\ Server.handler fetch Server.GetReports "Jane Doe"
     = Server.ToolError (Server.failure_prefix Server.GetReports
                           ++ message (TypeErrorRead true "data"))
  /\ Server.handler fetch Server.GetReports "Jane Doe"
     <> Server.ToolError Server.NO_REPORT.
Proof.
  intros res fetch.
  repeat (split; [first [reflexivity | intros H; discriminate H] |]).
  intros H; discriminate H.
Qed.

(** C2. Whenever the backend answers a tool's request with a status of
    400 or more, the tool's handler returns an error: the handler's
    prefix followed by "Backend returned <status>: <statusText>", a
    message that contains the status code in decimal. *)
Theorem http_error_carries_status :
  forall (fetch : Server.request -> result Server.response)
         (t : Server.tool) (name : string) (res : Server.response),
    fetch (Server.request_of t name) = Ok res ->
    (400 <= Server.res_status res)%Z ->
    Server.handler fetch t name
    = Server.ToolError
        (Server.failure_prefix t ++ "Backend returned "
           ++ show_Z (Server.res_status res) ++ ": " ++ Server.res_statusText res)
    /\ includes
         (Server.failure_prefix t ++ "Backend returned "
            ++ show_Z (Server.res_status res) ++ ": " ++ Server.res_statusText res)
         (show_Z (Server.res_status res)) = true.
Proof.
  intros fetch t name res Hfetch Hstatus.
  assert (Hok : Server.res_ok res = false).
  { unfold Server.res_ok. apply andb_false_iff. right.
    apply Z.leb_gt. lia. }
  rewrite (handler_fetched _ _ _ _ Hfetch). split.
  - destruct t; unfold Server.handler, Server.get_patients,
      Server.get_patient_chart, Server.get_reports;
      rewrite (callBackend_status res) by assumption; reflexivity.
  - rewrite <- string_app_assoc. apply includes_app.
Qed.

Lemma http_error_carries_status_witness :
  Server.handler
    (fun _ => Ok (Server.Response 404 "Not Found" (Throw (Error "Unexpected token"))))
    Server.GetReports "Jane Doe"
  = Server.ToolError "Failed to fetch report: Backend returned 404: Not Found"
  /\ includes "Failed to fetch report: Backend returned 404: Not Found" "404" = true.
Proof.
  apply (http_error_carries_status
           (fun _ => Ok (Server.Response 404 "Not Found"
                           (Throw (Error "Unexpected token"))))
           Server.GetReports "Jane Doe"
           (Server.Response 404 "Not Found" (Throw (Error "Unexpected token"))));
    [reflexivity | simpl; lia].
Defined.

(** [callBackend] without a timeout argument arms the abort timer with
    the five-minute default, and without a method it posts. *)
Lemma callBackend_defaults (fetch : Server.request -> result Server.response)
    (path : string) :
  Server.callBackend fetch path None None None
  = Server.callBackend
      (fun _ => fetch (Server.Request path [] Server.POST Server.DEFAULT_TIMEOUT))
      path None None None.
Proof. reflexivity. Qed.

(** C7, as the code has it.  The timeout is a parameter of the backend
    caller and every tool passes its own [TOOL_TIMEOUTS] entry, so it is
    configurable per tool; the three entries are the same thirty minutes,
    which is what reaches [fetch] for every tool, and the five-minute
    default of [callBackend] is shorter than each of them. *)
Theorem tool_timeouts_uniform :
  forall (t : Server.tool) (name : string),
    Server.req_timeout (Server.request_of t name) = Server.TOOL_TIMEOUTS t
    /\ Server.TOOL_TIMEOUTS t = 1800000%Z
    /\ Server.DEFAULT_TIMEOUT = 300000%Z
    /\ (Server.DEFAULT_TIMEOUT < Server.TOOL_TIMEOUTS t)%Z
    /\ (forall fetch : Server.request -> result Server.response,
          Server.handler fetch t name
          = Server.handler (fun _ => fetch (Server.request_of t name)) t name).
Proof.
  intros t name.
  split; [destruct t; reflexivity |].
  split; [destruct t; reflexivity |].
  split; [reflexivity |].
  split; [destruct t; reflexivity |].
  intros fetch. apply handler_once.
Qed.

(** C7 as worded fails: no tool, report-generating or not, is invoked
    with a timeout strictly longer than another tool's. *)
Lemma no_longer_timeout_class :
  ~ (exists (t1 t2 : Server.tool) (n1 n2 : string),
       (Server.req_timeout (Server.request_of t2 n2)
        < Server.req_timeout (Server.request_of t1 n1))%Z).
Proof.
  intros (t1 & t2 & n1 & n2 & H).
  destruct t1, t2; simpl in H; lia.
Qed.

(** Every error [get-patients] returns comes from its [catch] block. *)
Lemma get_patients_errors_are_caught
    (fetch : Server.request -> result Server.response) (msg : string) :
  Server.get_patients fetch = Server.ToolError msg ->
  exists e : exn, msg = "Failed to fetch patients: " ++ message e.
Proof.
  unfold Server.get_patients, Server.catching.
  match goal with |- match ?b with _ => _ end = _ -> _ => destruct b as [r|e] eqn:E end.
  - intros ->. exfalso. revert E. unfold bind.
    repeat match goal with
           | |- match ?x with _ => _ end = _ -> _ => destruct x; try discriminate
           end.
  - intros H. inversion H. now exists e.
Qed.




(** ** Pagination *)

(** [ceil_div n d] is the ceiling of [n / d]: the least number of pages
    of [d] rows that hold [n] rows. *)
Lemma ceil_div_spec (n d : Z) :
  (0 < d)%Z ->
  (n <= JSArray.ceil_div n d * d < n + d)%Z.
Proof.
  intros Hd. unfold JSArray.ceil_div.
  pose proof (Z.div_mod (n + d - 1) d ltac:(lia)) as Hdm.
  pose proof (Z.mod_pos_bound (n + d - 1) d Hd) as Hm.
  nia.
Qed.

Section Pager.
(** Both pagers are the same arithmetic at two page sizes. *)
Variable size : Z.
Local Abbreviation total rows := (Z.max 1 (JSArray.ceil_div rows size)).
Local Abbreviation safe pg rows := (Z.min pg (total rows)).

Lemma pager_safe_range (pg rows : Z) :
  (1 <= pg)%Z -> (1 <= safe pg rows <= total rows)%Z.
Proof. lia. Qed.

Lemma pager_prev (pg rows : Z) :
  (safe pg rows <=? 1)%Z = false -> (1 <= safe pg rows - 1)%Z.
Proof. intros H. apply Z.leb_gt in H. lia. Qed.

Lemma pager_next (pg rows : Z) :
  (1 <= pg)%Z -> (1 <= safe pg rows + 1)%Z.
Proof. lia. Qed.
End Pager.

Lemma patient_list_handle_page (patients : option (list PatientList.Patient))
    (ev : PatientList.event) (s : PatientList.State) :
  (1 <= PatientList.page s)%Z ->
  (1 <= PatientList.page (PatientList.handle patients ev s))%Z.
Proof.
  intros Hs. destruct ev; unfold PatientList.handle; simpl.
  - lia.
  - unfold PatientList.toggleSort.
    destruct (PatientList.SortKey_eqb _ _); exact Hs.
  - destruct (1 <? _)%Z; simpl; [| exact Hs].
    destruct (_ <=? 1)%Z eqn:E; simpl; [exact Hs |].
    apply (pager_prev PatientList.PAGE_SIZE), E.
  - destruct (1 <? _)%Z; simpl; [| exact Hs].
    destruct (_ <=? _)%Z; simpl; [exact Hs |].
    apply (pager_next PatientList.PAGE_SIZE), Hs.
Qed.

Lemma patient_list_run_page
    (trace : list (option (list PatientList.Patient) * PatientList.event)) :
  (1 <= PatientList.page (PatientList.run trace))%Z.
Proof.
  unfold PatientList.run.
  assert (H : (1 <= PatientList.page PatientList.initial)%Z) by (simpl; lia).
  revert H. generalize PatientList.initial as s.
  induction trace as [|[ps ev] trace IH]; intros s Hs; simpl.
  - exact Hs.
  - apply IH, patient_list_handle_page, Hs.
Qed.

Lemma patient_report_handle_page (txs : option (list value))
    (ev : PatientReport.event) (s : PatientReport.State) :
  (1 <= PatientReport.acctPage s)%Z ->
  (1 <= PatientReport.acctPage (PatientReport.handle txs ev s))%Z.
Proof.
  intros Hs. destruct ev; unfold PatientReport.handle; simpl.
  - exact Hs.
  - destruct (PatientReport.on_account s); simpl; [| exact Hs].
    destruct (1 <? _)%Z; simpl; [| exact Hs].
    destruct (_ <=? 1)%Z eqn:E; simpl; [exact Hs |].
    apply (pager_prev PatientReport.perPage), E.
  - destruct (PatientReport.on_account s); simpl; [| exact Hs].
    destruct (1 <? _)%Z; simpl; [| exact Hs].
    destruct (_ <=? _)%Z; simpl; [exact Hs |].
    apply (pager_next PatientReport.perPage), Hs.
Qed.

Lemma patient_report_run_page
    (trace : list (option (list value) * PatientReport.event)) :
  (1 <= PatientReport.acctPage (PatientReport.run trace))%Z.
Proof.
  unfold PatientReport.run.
  assert (H : (1 <= PatientReport.acctPage PatientReport.initial)%Z)
    by (simpl; lia).
  revert H. generalize PatientReport.initial as s.
  induction trace as [|[ps ev] trace IH]; intros s Hs; simpl.
  - exact Hs.
  - apply IH, patient_report_handle_page, Hs.
Qed.

(** C3. Whatever sequence of searches, sort toggles and pager clicks
    (under whatever props) led to the current page state, and whatever
    the number [n] of rows now to be shown, [safePage] lies between 1 and
    [max 1 (ceil (n / pageSize))]: with page size 10 in the patient list,
    and with page size 15 in the report's account tab.  The row count is
    independent of the history, so a filter that shrinks the result
    leaves the page clamped, not out of range. *)
Theorem safePage_in_range :
  (forall (trace : list (option (list PatientList.Patient) * PatientList.event))
          (n : nat),
      (1 <= PatientList.safePage (PatientList.page (PatientList.run trace))
              (Z.of_nat n)
         <= Z.max 1 (JSArray.ceil_div (Z.of_nat n) 10))%Z)
  /\ (forall (trace : list (option (list value) * PatientReport.event))
             (n : nat),
        (1 <= PatientReport.safePage
                (PatientReport.acctPage (PatientReport.run trace)) (Z.of_nat n)
           <= Z.max 1 (JSArray.ceil_div (Z.of_nat n) 15))%Z).
Proof.
  split; intros trace n.
  - apply (pager_safe_range PatientList.PAGE_SIZE), patient_list_run_page.
  - apply (pager_safe_range PatientReport.perPage), patient_report_run_page.
Qed.

(** A session that pages forward and then narrows the search: the page
    state stays at 3 while only one page of rows is left, and [safePage]
    answers 1. *)
Example safePage_after_shrink :
  let many := Some (repeat
      {| PatientList.patient_id := None; PatientList.first_name := "Jane";
         PatientList.last_name := "Doe"; PatientList.age := Some 40%Z;
         PatientList.wireless_phone := None; PatientList.home_phone := None;
         PatientList.work_phone := None; PatientList.address := None;
         PatientList.city := Some "Reno"; PatientList.status := Some "active" |}
      25) in
  let s := PatientList.run
             [(many, PatientList.NextPage); (many, PatientList.NextPage)] in
  PatientList.page s = 3%Z
  /\ PatientList.safePage (PatientList.page s) 25 = 3%Z
  /\ PatientList.safePage (PatientList.page s) 4 = 1%Z.
Proof. vm_compute. repeat split. Qed.

(** ** Sorting with a comparator *)

Section SortFacts.
Context {A : Type}.
Variable cmp : A -> A -> Z.

Local Abbreviation le := (fun a b : A => (cmp a b <= 0)%Z).

Lemma insert_perm (x : A) (l : list A) :
  Permutation (JSArray.insert cmp x l) (x :: l).
Proof.
  induction l as [|y l IH]; simpl.
  - reflexivity.
  - destruct (cmp x y <=? 0)%Z.
    + reflexivity.
    + rewrite IH. apply perm_swap.
Qed.

Lemma sort_perm (l : list A) : Permutation (JSArray.sort cmp l) l.
Proof.
  induction l as [|x l IH]; simpl.
  - reflexivity.
  - rewrite insert_perm. now apply perm_skip.
Qed.

Lemma insert_head (x : A) (l : list A) :
  Forall (le x) l -> JSArray.insert cmp x l = x :: l.
Proof.
  intros H. destruct l as [|y l]; simpl; [reflexivity |].
  inversion H as [|? ? Hxy _]; subst.
  apply Z.leb_le in Hxy. now rewrite Hxy.
Qed.

Lemma Forall_filter_keep (P : A -> Prop) (p : A -> bool) (l : list A) :
  Forall P l -> Forall P (List.filter p l).
Proof.
  induction 1 as [|y l Hy _ IH]; simpl; [constructor |].
  destruct (p y); [constructor |]; assumption.
Qed.

Hypothesis cmp_trans :
  forall a b c, (cmp a b <= 0 -> cmp b c <= 0 -> cmp a c <= 0)%Z.
Hypothesis cmp_total :
  forall a b, (0 < cmp a b -> cmp b a <= 0)%Z.

Lemma insert_sorted (x : A) (l : list A) :
  StronglySorted le l -> StronglySorted le (JSArray.insert cmp x l).
Proof.
  induction 1 as [|y l Hs IH Hy]; simpl.
  - repeat constructor.
  - destruct (cmp x y <=? 0)%Z eqn:E.
    + apply Z.leb_le in E. constructor; [now constructor |].
      constructor; [exact E |].
      eapply List.Forall_impl; [| exact Hy].
      intros z Hz. now apply (cmp_trans x y z).
    + apply Z.leb_gt in E. constructor; [exact IH |].
      rewrite (insert_perm x l). constructor; [| exact Hy].
      now apply cmp_total.
Qed.

Lemma sort_sorted (l : list A) : StronglySorted le (JSArray.sort cmp l).
Proof.
  induction l as [|x l IH]; simpl; [constructor | now apply insert_sorted].
Qed.

Lemma filter_insert (p : A -> bool) (x : A) (l : list A) :
  StronglySorted le l ->
  List.filter p (JSArray.insert cmp x l)
  = if p x then JSArray.insert cmp x (List.filter p l) else List.filter p l.
Proof.
  induction 1 as [|y l Hs IH Hy].
  - simpl. now destruct (p x).
  - cbn [JSArray.insert]. destruct (cmp x y <=? 0)%Z eqn:E.
    + apply Z.leb_le in E.
      change (List.filter p (x :: y :: l))
        with (if p x then x :: List.filter p (y :: l) else List.filter p (y :: l)).
      destruct (p x); [| reflexivity].
      symmetry. apply insert_head, Forall_filter_keep.
      constructor; [exact E |].
      eapply List.Forall_impl; [| exact Hy].
      intros z Hz. now apply (cmp_trans x y z).
    + cbn [List.filter]. rewrite IH.
      destruct (p y), (p x); cbn [JSArray.insert]; rewrite ?E; reflexivity.
Qed.

(** Filtering commutes with the stable sort. *)
Lemma filter_sort (p : A -> bool) (l : list A) :
  List.filter p (JSArray.sort cmp l) = JSArray.sort cmp (List.filter p l).
Proof.
  induction l as [|x l IH]; [reflexivity |].
  cbn [JSArray.sort List.filter].
  rewrite filter_insert by apply sort_sorted.
  rewrite IH. now destruct (p x).
Qed.

(** A list already in comparator order is returned as it is. *)
Lemma sort_sorted_id (l : list A) :
  StronglySorted le l -> JSArray.sort cmp l = l.
Proof.
  induction 1 as [|x l Hs IH Hx]; [reflexivity |].
  cbn [JSArray.sort]. rewrite IH. now apply insert_head.
Qed.

Hypothesis cmp_tie : forall a b, (cmp a b = 0 -> cmp b a <= 0)%Z.

(** Stability: the elements tied with [a] come out in the order they
    went in. *)
Lemma sort_stable (a : A) (l : list A) :
  List.filter (fun x => (cmp a x =? 0)%Z) (JSArray.sort cmp l)
  = List.filter (fun x => (cmp a x =? 0)%Z) l.
Proof.
  rewrite filter_sort. apply sort_sorted_id.
  induction l as [|x l IH]; cbn [List.filter]; [constructor |].
  destruct (cmp a x =? 0)%Z eqn:E; [| exact IH].
  constructor; [exact IH |].
  apply Z.eqb_eq in E. apply List.Forall_forall. intros y Hy.
  apply filter_In in Hy. destruct Hy as [_ Hy]. apply Z.eqb_eq in Hy.
  apply (cmp_trans x a y); [now apply cmp_tie | lia].
Qed.

Hypothesis cmp_refl : forall a, cmp a a = 0%Z.
Hypothesis cmp_antisym :
  forall a b, (cmp a b <= 0 -> cmp b a <= 0 -> cmp a b = 0)%Z.

(** Two lists in comparator order with the same elements and the same
    order inside every tie class are one list. *)
Lemma sorted_stable_unique (l1 l2 : list A) :
  StronglySorted le l1 -> StronglySorted le l2 ->
  Permutation l1 l2 ->
  (forall a, List.filter (fun x => (cmp a x =? 0)%Z) l1
             = List.filter (fun x => (cmp a x =? 0)%Z) l2) ->
  l1 = l2.
Proof.
  intros H1. revert l2.
  induction H1 as [|x l1 Hs1 IH Hx]; intros l2 H2 Hperm Hties.
  - now apply Permutation_nil in Hperm.
  - destruct H2 as [|y l2 Hs2 Hy].
    + symmetry in Hperm. now apply Permutation_nil in Hperm.
    + assert (Hxy : (cmp x y = 0)%Z).
      { assert (Hin1 : In y (x :: l1)).
        { eapply Permutation_in; [symmetry; exact Hperm | now left]. }
        assert (Hin2 : In x (y :: l2)).
        { eapply Permutation_in; [exact Hperm | now left]. }
        destruct Hin1 as [<- | Hin1]; [apply cmp_refl |].
        destruct Hin2 as [-> | Hin2]; [apply cmp_refl |].
        rewrite List.Forall_forall in Hx, Hy.
        apply cmp_antisym; [now apply Hx | now apply Hy]. }
      assert (Heq : x = y).
      { specialize (Hties x). cbn [List.filter] in Hties.
        rewrite cmp_refl, Hxy in Hties. cbn in Hties. congruence. }
      subst y. f_equal. apply IH.
      * exact Hs2.
      * now apply Permutation_cons_inv in Hperm.
      * intros a. specialize (Hties a). cbn [List.filter] in Hties.
        destruct (cmp a x =? 0)%Z; congruence.
Qed.

(** Hence [sort] is the only outcome the contract of
    [Array.prototype.sort] allows: any ordered, stable rearrangement of
    the input is the list it returns. *)
Lemma sort_unique (l l' : list A) :
  Permutation l' l ->
  StronglySorted le l' ->
  (forall a, List.filter (fun x => (cmp a x =? 0)%Z) l'
             = List.filter (fun x => (cmp a x =? 0)%Z) l) ->
  l' = JSArray.sort cmp l.
Proof.
  intros Hperm Hsorted Hstable.
  apply sorted_stable_unique.
  - exact Hsorted.
  - apply sort_sorted.
  - rewrite Hperm. symmetry. apply sort_perm.
  - intros a. rewrite Hstable. symmetry. apply sort_stable.
Qed.

End SortFacts.

(** ** The patient list's comparator *)

Lemma string_ltb_compare (a b : string) :
  str_lt a b = match String.compare a b with Lt => true | _ => false end.
Proof. reflexivity. Qed.

Lemma string_compare_le_trans (a b c : string) :
  String.compare a b <> Gt -> String.compare b c <> Gt ->
  String.compare a c <> Gt.
Proof.
  intros Hab Hbc.
  assert (Hle : forall x y, String.compare x y <> Gt <-> String.le x y).
  { intros x y. unfold String.le, String.leb.
    destruct (String.compare x y); simpl; intuition congruence. }
  apply Hle. transitivity b; now apply Hle.
Qed.

Lemma fold_case_lower (c : ascii) :
  N_of_ascii (lower_ascii c) = PatientList.fold_case c.
Proof. destruct c as [[] [] [] [] [] [] [] []]; reflexivity. Qed.

(** Comparing with the case ignored is comparing the lower-cased
    texts. *)
Lemma compare_ignoring_case_lower (s t : string) :
  PatientList.compare_ignoring_case s t
  = String.compare (toLowerCase s) (toLowerCase t).
Proof.
  revert t. induction s as [|a s IH]; intros [|b t]; try reflexivity.
  cbn [PatientList.compare_ignoring_case toLowerCase String.compare].
  unfold Ascii.compare. rewrite !fold_case_lower, IH. reflexivity.
Qed.

(** The comparator's keys realise the specified order. *)
Lemma key_order_keys (k : PatientList.SortKey) (a b : PatientList.Patient) :
  PatientList.key_order k a b
  = match k with
    | PatientList.K_age =>
        Z.compare (PatientList.age_key a) (PatientList.age_key b)
    | _ => String.compare (PatientList.string_key k a) (PatientList.string_key k b)
    end.
Proof.
  destruct k; try reflexivity;
    unfold PatientList.key_order, PatientList.string_key;
    rewrite compare_ignoring_case_lower; reflexivity.
Qed.

Lemma key_order_antisym (k : PatientList.SortKey) (a b : PatientList.Patient) :
  PatientList.key_order k b a = CompOpp (PatientList.key_order k a b).
Proof.
  rewrite !key_order_keys.
  destruct k; first [apply String.compare_antisym | apply Z.compare_antisym].
Qed.

Lemma key_order_le_trans (k : PatientList.SortKey) (a b c : PatientList.Patient) :
  PatientList.key_order k a b <> Gt -> PatientList.key_order k b c <> Gt ->
  PatientList.key_order k a c <> Gt.
Proof.
  rewrite !key_order_keys.
  destruct k; try apply string_compare_le_trans.
  rewrite !Z.compare_le_iff. lia.
Qed.

(** The comparator returns the sign the key order dictates, mirrored
    when the direction is descending. *)
Lemma compareFn_key_order (k : PatientList.SortKey) (d : PatientList.SortDir)
    (a b : PatientList.Patient) :
  PatientList.compareFn k d a b
  = match PatientList.key_order k a b with
    | Lt => PatientList.when_less d
    | Gt => PatientList.when_greater d
    | Eq => 0%Z
    end.
Proof.
  assert (Hs : forall x y : string,
             (if str_lt x y then PatientList.when_less d
              else if str_lt y x then PatientList.when_greater d else 0%Z)
             = match String.compare x y with
               | Lt => PatientList.when_less d
               | Gt => PatientList.when_greater d
               | Eq => 0%Z
               end).
  { intros x y. rewrite !string_ltb_compare, (String.compare_antisym y x).
    now destruct (String.compare x y). }
  rewrite key_order_keys.
  destruct k; simpl; try apply Hs.
  unfold Z.ltb. rewrite (Z.compare_antisym (PatientList.age_key a)).
  now destruct (PatientList.age_key a ?= PatientList.age_key b)%Z.
Qed.

Lemma compareFn_le (k : PatientList.SortKey) (d : PatientList.SortDir)
    (a b : PatientList.Patient) :
  (PatientList.compareFn k d a b <= 0)%Z
  <-> match d with
      | PatientList.asc => PatientList.key_order k a b <> Gt
      | PatientList.desc => PatientList.key_order k b a <> Gt
      end.
Proof.
  rewrite compareFn_key_order, (key_order_antisym k a b).
  destruct d, (PatientList.key_order k a b); simpl; split;
    first [lia | congruence | intros; lia | intros; congruence].
Qed.

Lemma compareFn_trans k d (a b c : PatientList.Patient) :
  (PatientList.compareFn k d a b <= 0 ->
   PatientList.compareFn k d b c <= 0 ->
   PatientList.compareFn k d a c <= 0)%Z.
Proof.
  rewrite !compareFn_le. destruct d; intros H1 H2.
  - exact (key_order_le_trans k a b c H1 H2).
  - exact (key_order_le_trans k c b a H2 H1).
Qed.

Lemma compareFn_total k d (a b : PatientList.Patient) :
  (0 < PatientList.compareFn k d a b ->
   PatientList.compareFn k d b a <= 0)%Z.
Proof.
  rewrite !compareFn_key_order, (key_order_antisym k a b).
  destruct d, (PatientList.key_order k a b); simpl; lia.
Qed.

Lemma compareFn_tie k d (a b : PatientList.Patient) :
  (PatientList.compareFn k d a b = 0 ->
   PatientList.compareFn k d b a <= 0)%Z.
Proof.
  rewrite !compareFn_key_order, (key_order_antisym k a b).
  destruct d, (PatientList.key_order k a b); simpl; lia.
Qed.

Lemma compareFn_refl k d (a : PatientList.Patient) :
  PatientList.compareFn k d a a = 0%Z.
Proof.
  rewrite compareFn_key_order.
  pose proof (key_order_antisym k a a) as H.
  now destruct (PatientList.key_order k a a).
Qed.

Lemma compareFn_antisym k d (a b : PatientList.Patient) :
  (PatientList.compareFn k d a b <= 0 ->
   PatientList.compareFn k d b a <= 0 ->
   PatientList.compareFn k d a b = 0)%Z.
Proof.
  rewrite !compareFn_key_order, (key_order_antisym k a b).
  destruct d, (PatientList.key_order k a b); simpl; lia.
Qed.

(** The patient list's [sorted] is determined by the contract of the
    runtime's sort, whatever algorithm the engine runs. *)
Lemma sortBy_unique (k : PatientList.SortKey) (d : PatientList.SortDir)
    (l l' : list PatientList.Patient) :
  Permutation l' l ->
  StronglySorted (fun a b => (PatientList.compareFn k d a b <= 0)%Z) l' ->
  (forall a, List.filter (PatientList.tied k d a) l'
             = List.filter (PatientList.tied k d a) l) ->
  l' = PatientList.sortBy k d l.
Proof.
  intros Hperm Hsorted Hstable. unfold PatientList.sortBy.
  apply sort_unique; try assumption.
  - apply compareFn_trans.
  - apply compareFn_total.
  - apply compareFn_tie.
  - apply compareFn_refl.
  - apply compareFn_antisym.
Qed.

Lemma filter_idem {A : Type} (p : A -> bool) (l : list A) :
  List.filter p (List.filter p l) = List.filter p l.
Proof.
  induction l as [|x l IH]; [reflexivity |].
  cbn [List.filter]. destruct (p x) eqn:E; [| exact IH].
  cbn [List.filter]. now rewrite E, IH.
Qed.

Lemma sortBy_filter (k : PatientList.SortKey) (d : PatientList.SortDir)
    (p : PatientList.Patient -> bool) (l : list PatientList.Patient) :
  List.filter p (PatientList.sortBy k d l) = PatientList.sortBy k d (List.filter p l).
Proof.
  apply filter_sort; [apply compareFn_trans | apply compareFn_total].
Qed.

Lemma sortBy_sorted (k : PatientList.SortKey) (d : PatientList.SortDir)
    (l : list PatientList.Patient) :
  StronglySorted (fun a b => (PatientList.compareFn k d a b <= 0)%Z)
    (PatientList.sortBy k d l).
Proof.
  apply sort_sorted; [apply compareFn_trans | apply compareFn_total].
Qed.

(** C5. The patient-list filter is idempotent, and it commutes with the
    sort: sorting the patients first and filtering afterwards gives the
    very list that filtering first and sorting afterwards gives (the sort
    being stable, not even tied patients change places), hence the same
    visible patients. *)
Theorem filter_idempotent_and_commutes_with_sort :
  forall (patients : option (list PatientList.Patient)) (q : string)
         (k : PatientList.SortKey) (d : PatientList.SortDir),
    PatientList.filtered (Some (PatientList.filtered patients q)) q
    = PatientList.filtered patients q
    /\ PatientList.filtered (option_map (PatientList.sortBy k d) patients) q
       = PatientList.sortBy k d (PatientList.filtered patients q)
    /\ Permutation
         (PatientList.filtered (option_map (PatientList.sortBy k d) patients) q)
         (PatientList.sortBy k d (PatientList.filtered patients q)).
Proof.
  intros patients q k d.
  assert (Hcomm : PatientList.filtered (option_map (PatientList.sortBy k d) patients) q
                  = PatientList.sortBy k d (PatientList.filtered patients q)).
  { destruct patients as [ps|]; simpl; [| reflexivity].
    unfold PatientList.filterBy. apply sortBy_filter. }
  repeat split.
  - destruct patients as [ps|]; simpl; [| reflexivity].
    unfold PatientList.filterBy. apply filter_idem.
  - exact Hcomm.
  - now rewrite Hcomm.
Qed.





Lemma StronglySorted_app_r {A : Type} (R : A -> A -> Prop) (l1 l2 : list A) :
  StronglySorted R (l1 ++ l2)%list -> StronglySorted R l2.
Proof.
  induction l1 as [|x l1 IH]; simpl; [trivial |].
  intros H. inversion H; subst. now apply IH.
Qed.

(** C10. Under the age key a patient without an age stands as 0: the
    comparator sees [age_key] only, which is 0 for such a patient.  So
    in ascending age order nobody listed after a patient of positive age
    is without an age: the ageless all come before. *)
Theorem ageless_sort_as_zero :
  forall (l l1 l2 : list PatientList.Patient) (a : PatientList.Patient) (n : Z),
    PatientList.sortBy PatientList.K_age PatientList.asc l = (l1 ++ a :: l2)%list ->
    PatientList.age a = Some n ->
    (0 < n)%Z ->
    Forall (fun b => PatientList.age b <> None) l2
    /\ (forall p : PatientList.Patient,
          PatientList.age p = None -> PatientList.age_key p = 0%Z)
    /\ (forall (d : PatientList.SortDir) (x y x' y' : PatientList.Patient),
          PatientList.age_key x = PatientList.age_key x' ->
          PatientList.age_key y = PatientList.age_key y' ->
          PatientList.compareFn PatientList.K_age d x y
          = PatientList.compareFn PatientList.K_age d x' y').
Proof.
  intros l l1 l2 a n Hsort Ha Hn. split; [| split].
  - pose proof (sortBy_sorted PatientList.K_age PatientList.asc l) as Hs.
    rewrite Hsort in Hs. apply StronglySorted_app_r in Hs.
    inversion Hs as [|? ? _ Hall]; subst.
    eapply List.Forall_impl; [| exact Hall].
    intros b Hab Hb. apply compareFn_le in Hab.
    rewrite key_order_keys in Hab.
    unfold PatientList.age_key in Hab. rewrite Ha, Hb in Hab.
    rewrite Z.compare_le_iff in Hab. lia.
  - intros p Hp. unfold PatientList.age_key. now rewrite Hp.
  - intros d x y x' y' Hx Hy. simpl. now rewrite Hx, Hy.
Qed.

Lemma ageless_sort_as_zero_witness :
  let mk := fun (nm : string) (ag : option Z) =>
    {| PatientList.patient_id := None; PatientList.first_name := nm;
       PatientList.last_name := "Doe"; PatientList.age := ag;
       PatientList.wireless_phone := None; PatientList.home_phone := None;
       PatientList.work_phone := None; PatientList.address := None;
       PatientList.city := None; PatientList.status := None |} in
  PatientList.sortBy PatientList.K_age PatientList.asc
    [mk "Ann" (Some 40%Z); mk "Bob" None; mk "Eve" (Some 7%Z); mk "Di" None]
  = [mk "Bob" None; mk "Di" None; mk "Eve" (Some 7%Z); mk "Ann" (Some 40%Z)]
  /\ Forall (fun b => PatientList.age b <> None) [mk "Ann" (Some 40%Z)].
Proof.
  intros mk. split; [reflexivity |].
  exact (proj1 (ageless_sort_as_zero
                  [mk "Ann" (Some 40%Z); mk "Bob" None; mk "Eve" (Some 7%Z);
                   mk "Di" None]
                  [mk "Bob" None; mk "Di" None] [mk "Ann" (Some 40%Z)]
                  (mk "Eve" (Some 7%Z)) 7%Z eq_refl eq_refl eq_refl)).
Defined.

(** The comparator ignores case, and the sort keeps tied rows in place:
    "doe" and "DOE" tie, and stay in their input order behind "Adams". *)
Example sort_by_last_name :
  let mk := fun (first last : string) =>
    {| PatientList.patient_id := None; PatientList.first_name := first;
       PatientList.last_name := last; PatientList.age := None;
       PatientList.wireless_phone := None; PatientList.home_phone := None;
       PatientList.work_phone := None; PatientList.address := None;
       PatientList.city := None; PatientList.status := None |} in
  PatientList.compareFn PatientList.K_last_name PatientList.asc
    (mk "Jane" "doe") (mk "John" "DOE") = 0%Z
  /\ PatientList.sortBy PatientList.K_last_name PatientList.asc
       [mk "Jane" "doe"; mk "John" "DOE"; mk "Al" "Adams"]
     = [mk "Al" "Adams"; mk "Jane" "doe"; mk "John" "DOE"]
  /\ PatientList.sortBy PatientList.K_last_name PatientList.desc
       [mk "Jane" "doe"; mk "John" "DOE"; mk "Al" "Adams"]
     = [mk "Jane" "doe"; mk "John" "DOE"; mk "Al" "Adams"].
Proof. repeat split. Qed.

(** ** The tooth grid *)

Lemma lower_ascii_idem (c : ascii) : lower_ascii (lower_ascii c) = lower_ascii c.
Proof. destruct c as [[] [] [] [] [] [] [] []]; reflexivity. Qed.

Lemma toLowerCase_idem (s : string) : toLowerCase (toLowerCase s) = toLowerCase s.
Proof.
  induction s as [|c s IH]; simpl; [reflexivity |].
  now rewrite lower_ascii_idem, IH.
Qed.

(** The map lookup and the record lookup of [getConditionColor] amount
    to the table. *)
Lemma getConditionColor_table (c : PatientChart.Colors) (x : string) :
  PatientChart.getConditionColor x c
  = PatientChart.table_color c (toLowerCase x).
Proof.
  unfold PatientChart.getConditionColor, PatientChart.condition_key,
    PatientChart.CONDITION_MAP, PatientChart.table_color.
  generalize (toLowerCase x) as y. intros y.
  cbn [List.find fst snd].
  rewrite !(String.eqb_sym _ y).
  repeat (match goal with
          | |- context [String.eqb y ?lit] => destruct (String.eqb y lit)
          end; [reflexivity |]).
  reflexivity.
Qed.

Lemma toothMap_snoc (l : list PatientChart.ToothEntry) (t : PatientChart.ToothEntry) :
  PatientChart.toothMap (l ++ [t])%list
  = <[PatientChart.tooth_number t := t]> (PatientChart.toothMap l).
Proof. unfold PatientChart.toothMap. now rewrite fold_left_app. Qed.

(** Looking a tooth up in [toothMap] finds the last entry that names it. *)
Lemma toothMap_lookup (l : list PatientChart.ToothEntry) (n : Z) :
  PatientChart.toothMap l !! n = PatientChart.last_entry n l.
Proof.
  induction l as [|t l IH] using rev_ind.
  - reflexivity.
  - rewrite toothMap_snoc. unfold PatientChart.last_entry.
    rewrite rev_app_distr. cbn [rev List.app List.find].
    rewrite lookup_insert. destruct (Z.eqb_spec (PatientChart.tooth_number t) n).
    + now rewrite decide_True.
    + rewrite decide_False by assumption. exact IH.
Qed.

Lemma last_entry_none (l : list PatientChart.ToothEntry) (n : Z) :
  Forall (fun t => PatientChart.tooth_number t <> n) l ->
  PatientChart.last_entry n l = None.
Proof.
  intros H. unfold PatientChart.last_entry.
  destruct (List.find _ (rev l)) as [t|] eqn:E; [| reflexivity].
  apply find_some in E. destruct E as [Hin Heq].
  apply in_rev in Hin. apply Z.eqb_eq in Heq.
  rewrite List.Forall_forall in H. now apply H in Hin.
Qed.

Lemma last_entry_last (l1 l2 : list PatientChart.ToothEntry)
    (t : PatientChart.ToothEntry) :
  Forall (fun t' => PatientChart.tooth_number t' <> PatientChart.tooth_number t) l2 ->
  PatientChart.last_entry (PatientChart.tooth_number t) (l1 ++ t :: l2)%list = Some t.
Proof.
  intros H. unfold PatientChart.last_entry.
  rewrite rev_app_distr. cbn [rev]. rewrite <- app_assoc. cbn [List.app].
  induction (List.Forall_rev H) as [|t' l' Ht' _ IH]; cbn [List.app List.find].
  - now rewrite Z.eqb_refl.
  - apply Z.eqb_neq in Ht'. now rewrite Ht'.
Qed.

(** The grid draws each of the teeth 1 to 32, and nothing else. *)
Lemma grid_teeth_range (n : Z) :
  In n PatientChart.grid_teeth <-> (1 <= n <= 32)%Z.
Proof.
  unfold PatientChart.grid_teeth, PatientChart.upper, PatientChart.lower.
  rewrite in_app_iff, !in_map_iff. split.
  - intros [(i & <- & Hi) | (i & <- & Hi)]; apply in_seq in Hi; lia.
  - intros Hn. destruct (Z_le_gt_dec n 16).
    + left. exists (Z.to_nat (n - 1)). split; [lia | apply in_seq; lia].
    + right. exists (Z.to_nat (32 - n)). split; [lia | apply in_seq; lia].
Qed.

Lemma renderTooth_string (c : PatientChart.Colors)
    (m : gmap Z PatientChart.ToothEntry) (sel : option Z) (n : Z)
    (e : PatientChart.ToothEntry) (s : string) :
  m !! n = Some e ->
  PatientChart.condition e = VStr s ->
  PatientChart.renderTooth c m sel n
  = Ok {| PatientChart.view_num := n;
          PatientChart.view_condition := toLowerCase s;
          PatientChart.view_color := PatientChart.table_color c (toLowerCase s);
          PatientChart.view_dashed := String.eqb (toLowerCase s) "missing";
          PatientChart.view_selected :=
            match sel with Some k => (k =? n)%Z | None => false end |}.
Proof.
  intros Hm Hs. unfold PatientChart.renderTooth, PatientChart.condition_of.
  rewrite Hm, Hs. cbn [bind].
  now rewrite getConditionColor_table, toLowerCase_idem.
Qed.

(** C4. When the payload's entry for a tooth of the grid (its last entry
    naming that tooth) carries a condition string, the tooth is drawn in
    the colour the condition-to-colour table gives for the lower-cased
    string: the palette entry of the label it matches among healthy,
    missing, crown, filling, decay, root canal / rootcanal and implant,
    and the [other] entry for any string outside that set. *)
Theorem tooth_color_follows_table :
  forall (theme : PatientChart.Theme) (entries : list PatientChart.ToothEntry)
         (sel : option Z) (n : Z) (e : PatientChart.ToothEntry) (s : string),
    (1 <= n <= 32)%Z ->
    PatientChart.last_entry n entries = Some e ->
    PatientChart.condition e = VStr s ->
    In n PatientChart.grid_teeth
    /\ PatientChart.renderTooth (PatientChart.useColors theme)
         (PatientChart.toothMap entries) sel n
       = Ok {| PatientChart.view_num := n;
               PatientChart.view_condition := toLowerCase s;
               PatientChart.view_color :=
                 PatientChart.table_color (PatientChart.useColors theme)
                   (toLowerCase s);
               PatientChart.view_dashed := String.eqb (toLowerCase s) "missing";
               PatientChart.view_selected :=
                 match sel with Some k => (k =? n)%Z | None => false end |}
    /\ PatientChart.getConditionColor s (PatientChart.useColors theme)
       = PatientChart.table_color (PatientChart.useColors theme) (toLowerCase s).
Proof.
  intros theme entries sel n e s Hn He Hs. split; [| split].
  - now apply grid_teeth_range.
  - apply renderTooth_string with (e := e); [| exact Hs].
    now rewrite toothMap_lookup.
  - apply getConditionColor_table.
Qed.

Lemma tooth_color_follows_table_witness :
  let entries :=
    [ {| PatientChart.tooth_number := 3; PatientChart.condition := VStr "Crown" |};
      {| PatientChart.tooth_number := 14; PatientChart.condition := VStr "ROOT CANAL" |};
      {| PatientChart.tooth_number := 30; PatientChart.condition := VStr "Veneer" |} ] in
  PatientChart.renderTooth (PatientChart.useColors PatientChart.light)
    (PatientChart.toothMap entries) None 14
  = Ok {| PatientChart.view_num := 14;
          PatientChart.view_condition := "root canal";
          PatientChart.view_color := "#6f42c1";
          PatientChart.view_dashed := false;
          PatientChart.view_selected := false |}.
Proof.
  intros entries.
  refine (proj1 (proj2 (tooth_color_follows_table PatientChart.light entries None
                          14 {| PatientChart.tooth_number := 14;
                                PatientChart.condition := VStr "ROOT CANAL" |}
                          "ROOT CANAL" _ _ _))).
  - split; intros H; discriminate H.
  - reflexivity.
  - reflexivity.
Defined.

(** C8. A tooth that no entry of [teeth_with_conditions] names is drawn
    with the condition "healthy" in the healthy colour, solid, which is
    neither the [other] nor the [missing] colour of the palette; and a
    tooth that several entries name is drawn from the last of them: the
    map lookup returns that entry, the tooth is drawn as if it were the
    only entry, and what is drawn is that entry's own condition -- its
    lower-cased ASCII string in the colour the table gives it, or
    "healthy" when the entry's condition is null or absent -- whatever
    the earlier entries say. *)
Theorem unlisted_tooth_healthy_last_entry_wins :
  forall (theme : PatientChart.Theme) (entries : list PatientChart.ToothEntry)
         (sel : option Z) (n : Z),
    PatientChart.toothMap entries !! n = PatientChart.last_entry n entries
    /\ (Forall (fun t => PatientChart.tooth_number t <> n) entries ->
        PatientChart.renderTooth (PatientChart.useColors theme)
          (PatientChart.toothMap entries) sel n
        = Ok {| PatientChart.view_num := n;
                PatientChart.view_condition := "healthy";
                PatientChart.view_color :=
                  PatientChart.healthy (PatientChart.useColors theme);
                PatientChart.view_dashed := false;
                PatientChart.view_selected :=
                  match sel with Some k => (k =? n)%Z | None => false end |})
    /\ PatientChart.healthy (PatientChart.useColors theme)
       <> PatientChart.other (PatientChart.useColors theme)
    /\ PatientChart.healthy (PatientChart.useColors theme)
       <> PatientChart.missing (PatientChart.useColors theme)
    /\ (forall (l1 l2 : list PatientChart.ToothEntry) (t : PatientChart.ToothEntry),
          entries = (l1 ++ t :: l2)%list ->
          PatientChart.tooth_number t = n ->
          Forall (fun t' => PatientChart.tooth_number t' <> n) l2 ->
          PatientChart.toothMap entries !! n = Some t
          /\ PatientChart.renderTooth (PatientChart.useColors theme)
               (PatientChart.toothMap entries) sel n
             = PatientChart.renderTooth (PatientChart.useColors theme)
                 (PatientChart.toothMap [t]) sel n
          /\ (forall s : string,
                PatientChart.condition t = VStr s ->
                is_ascii s = true ->
                PatientChart.renderTooth (PatientChart.useColors theme)
                  (PatientChart.toothMap entries) sel n
                = Ok {| PatientChart.view_num := n;
                        PatientChart.view_condition := toLowerCase s;
                        PatientChart.view_color :=
                          PatientChart.table_color
                            (PatientChart.useColors theme) (toLowerCase s);
                        PatientChart.view_dashed :=
                          String.eqb (toLowerCase s) "missing";
                        PatientChart.view_selected :=
                          match sel with
                          | Some k => (k =? n)%Z
                          | None => false
                          end |})
          /\ (nullish (PatientChart.condition t) = true ->
              PatientChart.renderTooth (PatientChart.useColors theme)
                (PatientChart.toothMap entries) sel n
              = Ok {| PatientChart.view_num := n;
                      PatientChart.view_condition := "healthy";
                      PatientChart.view_color :=
                        PatientChart.healthy (PatientChart.useColors theme);
                      PatientChart.view_dashed := false;
                      PatientChart.view_selected :=
                        match sel with
                        | Some k => (k =? n)%Z
                        | None => false
                        end |})).
Proof.
  intros theme entries sel n. split; [apply toothMap_lookup |].
  split; [| split; [| split]].
  - intros Hnone. unfold PatientChart.renderTooth.
    rewrite toothMap_lookup, (last_entry_none _ _ Hnone). cbn [PatientChart.condition_of bind].
    now rewrite getConditionColor_table.
  - destruct theme; discriminate.
  - destruct theme; discriminate.
  - intros l1 l2 t -> <- Hlater.
    assert (Hlook : PatientChart.toothMap (l1 ++ t :: l2)%list
                      !! PatientChart.tooth_number t = Some t).
    { rewrite toothMap_lookup. now apply last_entry_last. }
    split; [exact Hlook |]. split; [| split].
    + unfold PatientChart.renderTooth. rewrite Hlook.
      unfold PatientChart.toothMap. cbn [fold_left].
      now rewrite lookup_insert_eq.
    + intros s Hs _. now apply renderTooth_string with (e := t).
    + intros Hnull. unfold PatientChart.renderTooth, PatientChart.condition_of.
      rewrite Hlook.
      destruct (PatientChart.condition t); try discriminate Hnull;
        cbn [bind]; now rewrite getConditionColor_table.
Qed.

Lemma unlisted_tooth_healthy_last_entry_wins_witness :
  let entries :=
    [ {| PatientChart.tooth_number := 8; PatientChart.condition := VStr "decay" |};
      {| PatientChart.tooth_number := 19; PatientChart.condition := VStr "missing" |};
      {| PatientChart.tooth_number := 8; PatientChart.condition := VStr "Filling" |} ] in
  PatientChart.renderTooth (PatientChart.useColors PatientChart.dark)
    (PatientChart.toothMap entries) None 5
  = Ok {| PatientChart.view_num := 5;
          PatientChart.view_condition := "healthy";
          PatientChart.view_color := "#2d6a4f";
          PatientChart.view_dashed := false;
          PatientChart.view_selected := false |}
  /\ PatientChart.toothMap entries !! 8%Z
     = Some {| PatientChart.tooth_number := 8;
               PatientChart.condition := VStr "Filling" |}
  /\ PatientChart.renderTooth (PatientChart.useColors PatientChart.dark)
       (PatientChart.toothMap entries) None 8
     = Ok {| PatientChart.view_num := 8;
             PatientChart.view_condition := "filling";
             PatientChart.view_color := "#ca8a04";
             PatientChart.view_dashed := false;
             PatientChart.view_selected := false |}.
Proof.
  intros entries.
  pose (l1 := [ {| PatientChart.tooth_number := 8;
                   PatientChart.condition := VStr "decay" |};
                {| PatientChart.tooth_number := 19;
                   PatientChart.condition := VStr "missing" |} ]).
  pose (t := {| PatientChart.tooth_number := 8;
                PatientChart.condition := VStr "Filling" |}).
  split; [| split].
  - refine (proj1 (proj2 (unlisted_tooth_healthy_last_entry_wins
                            PatientChart.dark entries None 5)) _).
    repeat constructor; intros H; discriminate H.
  - refine (proj1 (proj2 (proj2 (proj2 (proj2
              (unlisted_tooth_healthy_last_entry_wins
                 PatientChart.dark entries None 8))))
              l1 [] t eq_refl eq_refl _)).
    constructor.
  - refine (proj1 (proj2 (proj2 (proj2 (proj2 (proj2 (proj2
              (unlisted_tooth_healthy_last_entry_wins
                 PatientChart.dark entries None 8))))
              l1 [] t eq_refl eq_refl _))) "Filling" eq_refl eq_refl).
    constructor.
Defined.

(** A full arch of one payload: an unknown label takes the [other]
    colour, upper-case labels match, and a missing tooth is dashed. *)
Example render_samples :
  let c := PatientChart.useColors PatientChart.light in
  let m := PatientChart.toothMap
    [ {| PatientChart.tooth_number := 1; PatientChart.condition := VStr "MISSING" |};
      {| PatientChart.tooth_number := 2; PatientChart.condition := VStr "bridge" |};
      {| PatientChart.tooth_number := 3; PatientChart.condition := VNull |};
      {| PatientChart.tooth_number := 4; PatientChart.condition := VNum 7 |} ] in
  PatientChart.renderTooth c m (Some 1%Z) 1
  = Ok {| PatientChart.view_num := 1; PatientChart.view_condition := "missing";
          PatientChart.view_color := "#adb5bd"; PatientChart.view_dashed := true;
          PatientChart.view_selected := true |}
  /\ PatientChart.renderTooth c m None 2
     = Ok {| PatientChart.view_num := 2; PatientChart.view_condition := "bridge";
             PatientChart.view_color := "#6c757d"; PatientChart.view_dashed := false;
             PatientChart.view_selected := false |}
  /\ PatientChart.renderTooth c m None 3
     = Ok {| PatientChart.view_num := 3; PatientChart.view_condition := "healthy";
             PatientChart.view_color := "#28a745"; PatientChart.view_dashed := false;
             PatientChart.view_selected := false |}
  /\ PatientChart.renderTooth c m None 4
     = Throw (TypeErrorNotFunction "data?.condition?.toLowerCase").
Proof. repeat split. Qed.

(* ===================================================================== *)
(** * Further properties of the handlers                                  *)
(* ===================================================================== *)

Ltac crack_body :=
  repeat match goal with
         | |- match ?x with _ => _ end = _ -> _ => destruct x eqn:?; try discriminate
         | |- (if ?x then _ else _) = _ -> _ => destruct x eqn:?; try discriminate
         end.

Ltac scrutinee_is_plain x :=
  lazymatch x with
  | context [match _ with _ => _ end] => fail
  | _ => idtac
  end.

Ltac crack_hyp H :=
  repeat match type of H with
         | context [match ?x with _ => _ end] =>
             scrutinee_is_plain x; destruct x eqn:?; try discriminate H
         end.

(** X1. Whatever the network and the backend do, an error returned by a
    tool handler is one of two things: the tool's own "no data" message
    (chart and report only), or the handler's prefix followed by the
    message of the exception its [catch] block caught. *)
Theorem handler_errors_classified :
  forall (fetch : Server.request -> result Server.response)
         (t : Server.tool) (name msg : string),
    Server.handler fetch t name = Server.ToolError msg ->
    Server.no_data_message t = Some msg
    \/ exists e : exn, msg = Server.failure_prefix t ++ message e.
Proof.
  intros fetch t name msg. destruct t; simpl.
  - intros H. right. now apply (get_patients_errors_are_caught fetch).
  - unfold Server.get_patient_chart, Server.catching.
    match goal with
    | |- match ?b with _ => _ end = _ -> _ => destruct b as [r|e] eqn:E
    end.
    + intros ->. revert E. unfold bind. crack_body.
      intros H. inversion H. now left.
    + intros H. inversion H. right. now exists e.
  - unfold Server.get_reports, Server.catching.
    match goal with
    | |- match ?b with _ => _ end = _ -> _ => destruct b as [r|e] eqn:E
    end.
    + intros ->. revert E. unfold bind. crack_body.
      intros H. inversion H. now left.
    + intros H. inversion H. right. now exists e.
Qed.

Lemma handler_errors_classified_witness :
  Server.no_data_message Server.GetReports
  = Some "No report data returned for this patient."
  \/ exists e : exn,
       "No report data returned for this patient."
       = Server.failure_prefix Server.GetReports ++ message e.
Proof.
  exact (handler_errors_classified
           (fun _ => Ok (Server.Response 200 "OK" (Ok (VObj []))))
           Server.GetReports "Jane Doe"
           "No report data returned for this patient." eq_refl).
Defined.

Lemma callBackend_unparsed (res : Server.response) (e : exn) path m ps tm :
  Server.res_ok res = true -> Server.res_json res = Throw e ->
  Server.callBackend (fun _ => Ok res) path m ps tm = Throw e.
Proof.
  intros Hok Hjson. unfold Server.callBackend, bind. now rewrite Hok.
Qed.

Lemma res_ok_range (res : Server.response) :
  Server.res_ok res = true <-> (200 <= Server.res_status res <= 299)%Z.
Proof.
  unfold Server.res_ok. rewrite andb_true_iff, !Z.leb_le. tauto.
Qed.

(** X2. A handler returns a widget only when the backend answered with
    a status from 200 to 299 and a body that parsed and unwrapped; the
    widget's props then carry the promised sub-object of that body as it
    came (an empty list in its place for a missing patient list), and
    the chart and report widgets carry the requested patient name and a
    truthy sub-object. *)
Theorem widget_needs_good_response :
  forall (fetch : Server.request -> result Server.response)
         (t : Server.tool) (name : string)
         (props : list (string * value)) (output : string),
    Server.handler fetch t name = Server.Widget props output ->
    exists (res : Server.response) (json data sub : value),
      fetch (Server.request_of t name) = Ok res
      /\ (200 <= Server.res_status res <= 299)%Z
      /\ Server.res_json res = Ok json
      /\ Server.unwrap json = Ok data
      /\ get_prop data (Server.expected_field t) = Ok sub
      /\ match t with
         | Server.GetPatients =>
             exists totalCount : value,
               props = [("patients", coalesce sub (VArr []));
                        ("totalCount", totalCount)]
         | Server.GetPatientChart =>
             truthy sub = true
             /\ props = [("chart", sub); ("patientName", VStr name)]
         | Server.GetReports =>
             truthy sub = true
             /\ props = [("report", sub); ("patientName", VStr name)]
         end.
Proof.
  intros fetch t name props output.
  destruct (fetch (Server.request_of t name)) as [res|e] eqn:Hf.
  2: { rewrite handler_once, Hf. destruct t; discriminate. }
  rewrite (handler_fetched _ _ _ _ Hf).
  destruct (Server.res_ok res) eqn:Hok.
  2: { destruct t; unfold Server.handler, Server.get_patients,
         Server.get_patient_chart, Server.get_reports;
         rewrite (callBackend_status res) by assumption; discriminate. }
  destruct (Server.res_json res) as [json|e] eqn:Hj.
  2: { destruct t; unfold Server.handler, Server.get_patients,
         Server.get_patient_chart, Server.get_reports;
         rewrite (callBackend_unparsed res e) by assumption; discriminate. }
  destruct (Server.unwrap json) as [data|e] eqn:Hun.
  2: { destruct t; unfold Server.handler, Server.get_patients,
         Server.get_patient_chart, Server.get_reports;
         rewrite (callBackend_parsed res json) by assumption;
         cbn [bind]; rewrite Hun; discriminate. }
  destruct (get_prop data (Server.expected_field t)) as [sub|e] eqn:Hsub.
  2: { destruct t; simpl in Hsub;
         unfold Server.handler, Server.get_patients,
         Server.get_patient_chart, Server.get_reports;
         rewrite (callBackend_parsed res json) by assumption;
         cbn [bind]; rewrite Hun; cbn [bind]; rewrite Hsub; discriminate. }
  intros H. exists res, json, data, sub.
  pose proof (proj1 (res_ok_range res) Hok) as Hrange.
  repeat (split; [first [reflexivity | assumption] |]).
  destruct t; simpl in Hsub;
    unfold Server.handler, Server.get_patients,
      Server.get_patient_chart, Server.get_reports in H;
    rewrite (callBackend_parsed res json) in H by assumption;
    cbn [bind] in H; rewrite Hun in H; cbn [bind] in H; rewrite Hsub in H;
    cbn [bind] in H; unfold Server.catching, bind in H.
  - crack_hyp H; inversion H; subst; eauto.
  - destruct (truthy sub); simpl in H; [| discriminate H].
    crack_hyp H; inversion H; subst; auto.
  - destruct (truthy sub); simpl in H; [| discriminate H].
    crack_hyp H; inversion H; subst; auto.
Qed.

Lemma widget_needs_good_response_witness :
  exists (res : Server.response) (json data sub : value),
    Ok (Server.Response 200 "OK"
          (Ok (VObj [("patient_chart", VObj [("summary", VNull)])])))
    = Ok res
    /\ (200 <= Server.res_status res <= 299)%Z
    /\ Server.res_json res = Ok json
    /\ Server.unwrap json = Ok data
    /\ get_prop data "patient_chart" = Ok sub
    /\ truthy sub = true
    /\ [("chart", VObj [("summary", VNull)]); ("patientName", VStr "Jane Doe")]
       = [("chart", sub); ("patientName", VStr "Jane Doe")].
Proof.
  exact (widget_needs_good_response
           (fun _ => Ok (Server.Response 200 "OK"
                           (Ok (VObj [("patient_chart", VObj [("summary", VNull)])]))))
           Server.GetPatientChart "Jane Doe"
           [("chart", VObj [("summary", VNull)]); ("patientName", VStr "Jane Doe")]
           "Dental chart for Jane Doe: 0 teeth with work, 0 missing."
           eq_refl).
Defined.

Lemma handler_of_unwrap (t : Server.tool) (name : string)
    (res res' : Server.response) (json json' : value) :
  Server.res_status res = Server.res_status res' ->
  Server.res_statusText res = Server.res_statusText res' ->
  Server.res_json res = Ok json -> Server.res_json res' = Ok json' ->
  Server.unwrap json = Server.unwrap json' ->
  Server.handler (fun _ => Ok res) t name
  = Server.handler (fun _ => Ok res') t name.
Proof.
  intros Hst Htxt Hj Hj' Hun.
  assert (Hok : Server.res_ok res = Server.res_ok res').
  { unfold Server.res_ok. now rewrite Hst. }
  destruct (Server.res_ok res) eqn:E; symmetry in Hok.
  - destruct t; unfold Server.handler, Server.get_patients,
      Server.get_patient_chart, Server.get_reports;
      rewrite (callBackend_parsed res json), (callBackend_parsed res' json')
        by assumption;
      cbn [bind]; now rewrite Hun.
  - destruct t; unfold Server.handler, Server.get_patients,
      Server.get_patient_chart, Server.get_reports;
      rewrite (callBackend_status res), (callBackend_status res')
        by assumption;
      now rewrite Hst, Htxt.
Qed.

(** X3. The [data] envelope is optional: a body that carries the
    payload [d] under [data] is handled exactly like the bare payload
    [d], provided [d] is not null and has no non-null [data] of its own
    (that is, [d] unwraps to itself). *)
Theorem envelope_is_optional :
  forall (t : Server.tool) (name : string) (status : Z) (statusText : string)
         (props : list (string * value)) (d : value),
    lookup_prop "data" props = d ->
    Server.unwrap d = Ok d ->
    Server.unwrap (VObj props) = Ok d
    /\ Server.handler
         (fun _ => Ok (Server.Response status statusText (Ok (VObj props)))) t name
       = Server.handler
           (fun _ => Ok (Server.Response status statusText (Ok d))) t name.
Proof.
  intros t name status statusText props d Hd Hself.
  assert (Hun : Server.unwrap (VObj props) = Ok d).
  { unfold Server.unwrap. simpl. rewrite Hd. unfold coalesce.
    now rewrite (unwrap_not_nullish d d Hself). }
  split; [exact Hun |].
  apply (handler_of_unwrap t name _ _ (VObj props) d); try reflexivity.
  now rewrite Hun, Hself.
Qed.

Lemma envelope_is_optional_witness :
  Server.handler
    (fun _ => Ok (Server.Response 200 "OK"
       (Ok (VObj [("status", VStr "ok");
                  ("data", VObj [("patients", VArr [VObj []]); ("total_count", VNum 1)])]))))
    Server.GetPatients ""
  = Server.handler
      (fun _ => Ok (Server.Response 200 "OK"
         (Ok (VObj [("patients", VArr [VObj []]); ("total_count", VNum 1)]))))
      Server.GetPatients "".
Proof.
  exact (proj2 (envelope_is_optional Server.GetPatients "" 200 "OK"
                  [("status", VStr "ok");
                   ("data", VObj [("patients", VArr [VObj []]); ("total_count", VNum 1)])]
                  (VObj [("patients", VArr [VObj []]); ("total_count", VNum 1)])
                  eq_refl eq_refl)).
Defined.

(** X4. A request that fails in transport -- [fetch] rejects (network
    failure, abort on timeout), or the body of a 2xx answer does not
    parse -- makes every handler return its prefix followed by the
    message of that failure, unchanged. *)
Theorem transport_failures_wrapped :
  forall (fetch : Server.request -> result Server.response)
         (t : Server.tool) (name : string) (e : exn),
    (fetch (Server.request_of t name) = Throw e
     \/ exists res : Server.response,
          fetch (Server.request_of t name) = Ok res
          /\ Server.res_ok res = true
          /\ Server.res_json res = Throw e) ->
    Server.handler fetch t name
    = Server.ToolError (Server.failure_prefix t ++ message e).
Proof.
  intros fetch t name e [Hf | (res & Hf & Hok & Hj)].
  - rewrite handler_once, Hf. now destruct t.
  - rewrite (handler_fetched _ _ _ _ Hf).
    destruct t; unfold Server.handler, Server.get_patients,
      Server.get_patient_chart, Server.get_reports;
      rewrite (callBackend_unparsed res e) by assumption; reflexivity.
Qed.

Lemma transport_failures_wrapped_witness :
  Server.handler (fun _ => Throw (Error "This operation was aborted"))
    Server.GetPatientChart "Jane Doe"
  = Server.ToolError "Failed to fetch chart: This operation was aborted".
Proof.
  exact (transport_failures_wrapped
           (fun _ => Throw (Error "This operation was aborted"))
           Server.GetPatientChart "Jane Doe"
           (Error "This operation was aborted") (or_introl eq_refl)).
Defined.

(** X5. When the unwrapped body holds a [patients] array,
    [get-patients] passes the array on as it is; the count it reports
    and writes into "Found <count> patient(s). ..." is [total_count]
    whenever the body has one (whatever the array's length), and the
    array's length otherwise.  The text is stated for a count the
    runtime prints in plain digits: a safe integer, or a value that is
    no number. *)
Theorem patient_count_reported :
  forall (fetch : Server.request -> result Server.response) (name : string)
         (res : Server.response) (json data tc : value) (items : list value),
    fetch (Server.request_of Server.GetPatients name) = Ok res ->
    Server.res_ok res = true ->
    Server.res_json res = Ok json ->
    Server.unwrap json = Ok data ->
    get_prop data "patients" = Ok (VArr items) ->
    get_prop data "total_count" = Ok tc ->
    printable (if nullish tc then VNum (Z.of_nat (List.length items)) else tc)
    = true ->
    let count := if nullish tc then VNum (Z.of_nat (List.length items)) else tc in
    Server.get_patients fetch
    = Server.Widget [("patients", VArr items); ("totalCount", count)]
        ("Found " ++ to_string count
           ++ " patient(s). Use the table to browse or click a patient for details.").
Proof.
  intros fetch name res json data tc items Hf Hok Hj Hun Hp Htc _ count.
  pose proof (handler_fetched fetch Server.GetPatients name res Hf) as Hh.
  simpl in Hh. rewrite Hh. unfold Server.get_patients.
  rewrite (callBackend_parsed res json) by assumption.
  cbn [bind]. rewrite Hun. cbn [bind]. rewrite Hp. cbn [bind].
  rewrite Htc. cbn [bind]. subst count.
  destruct (nullish tc); reflexivity.
Qed.

Lemma patient_count_reported_witness :
  Server.get_patients
    (fun _ => Ok (Server.Response 200 "OK"
       (Ok (VObj [("data", VObj [("patients", VArr [VObj []; VObj []; VObj []])])]))))
  = Server.Widget
      [("patients", VArr [VObj []; VObj []; VObj []]); ("totalCount", VNum 3)]
      "Found 3 patient(s). Use the table to browse or click a patient for details.".
Proof.
  exact (patient_count_reported
           (fun _ => Ok (Server.Response 200 "OK"
              (Ok (VObj [("data", VObj [("patients", VArr [VObj []; VObj []; VObj []])])]))))
           ""
           (Server.Response 200 "OK"
              (Ok (VObj [("data", VObj [("patients", VArr [VObj []; VObj []; VObj []])])])))
           (VObj [("data", VObj [("patients", VArr [VObj []; VObj []; VObj []])])])
           (VObj [("patients", VArr [VObj []; VObj []; VObj []])])
           VUndefined [VObj []; VObj []; VObj []]
           eq_refl eq_refl eq_refl eq_refl eq_refl eq_refl eq_refl).
Defined.

(** X6. A chart (resp. report) that arrives without a [summary] still
    yields its widget: the payload is passed on with the requested
    name, and both counters of the summary line read 0. *)
Theorem summary_counters_default_to_zero :
  forall (fetch : Server.request -> result Server.response) (name : string)
         (res : Server.response) (json data sub summary : value),
    Server.res_ok res = true ->
    Server.res_json res = Ok json ->
    Server.unwrap json = Ok data ->
    truthy sub = true ->
    get_prop sub "summary" = Ok summary ->
    nullish summary = true ->
    (fetch (Server.request_of Server.GetPatientChart name) = Ok res ->
     get_prop data "patient_chart" = Ok sub ->
     Server.get_patient_chart fetch name
     = Server.Widget [("chart", sub); ("patientName", VStr name)]
         ("Dental chart for " ++ name ++ ": 0 teeth with work, 0 missing."))
    /\ (fetch (Server.request_of Server.GetReports name) = Ok res ->
        get_prop data "patient_report" = Ok sub ->
        Server.get_reports fetch name
        = Server.Widget [("report", sub); ("patientName", VStr name)]
            ("Report for " ++ name ++ ": balance $0, 0 pending claims.")).
Proof.
  intros fetch name res json data sub summary Hok Hj Hun Htruthy Hsum Hnull.
  split; intros Hf Hsub.
  - pose proof (handler_fetched fetch Server.GetPatientChart name res Hf) as Hh.
    simpl in Hh. rewrite Hh. unfold Server.get_patient_chart.
    rewrite (callBackend_parsed res json) by assumption.
    cbn [bind]. rewrite Hun. cbn [bind]. rewrite Hsub. cbn [bind].
    rewrite Htruthy. cbn [negb]. rewrite Hsum. cbn [bind].
    unfold get_prop_opt. rewrite Hnull. reflexivity.
  - pose proof (handler_fetched fetch Server.GetReports name res Hf) as Hh.
    simpl in Hh. rewrite Hh. unfold Server.get_reports.
    rewrite (callBackend_parsed res json) by assumption.
    cbn [bind]. rewrite Hun. cbn [bind]. rewrite Hsub. cbn [bind].
    rewrite Htruthy. cbn [negb]. rewrite Hsum. cbn [bind].
    unfold get_prop_opt. rewrite Hnull. reflexivity.
Qed.

Lemma summary_counters_default_to_zero_witness :
  Server.get_reports
    (fun _ => Ok (Server.Response 200 "OK"
       (Ok (VObj [("data", VObj [("patient_report", VObj [("account", VObj [])])])]))))
    "Jane Doe"
  = Server.Widget
      [("report", VObj [("account", VObj [])]); ("patientName", VStr "Jane Doe")]
      "Report for Jane Doe: balance $0, 0 pending claims.".
Proof.
  exact (proj2 (summary_counters_default_to_zero
           (fun _ => Ok (Server.Response 200 "OK"
              (Ok (VObj [("data", VObj [("patient_report", VObj [("account", VObj [])])])]))))
           "Jane Doe"
           (Server.Response 200 "OK"
              (Ok (VObj [("data", VObj [("patient_report", VObj [("account", VObj [])])])])))
           (VObj [("data", VObj [("patient_report", VObj [("account", VObj [])])])])
           (VObj [("patient_report", VObj [("account", VObj [])])])
           (VObj [("account", VObj [])]) VUndefined
           eq_refl eq_refl eq_refl eq_refl eq_refl eq_refl) eq_refl eq_refl).
Defined.

(* ===================================================================== *)
(** * Further properties of the patient list                              *)
(* ===================================================================== *)

Lemma append_cons (c : ascii) (a b : string) :
  String c a ++ b = String c (a ++ b).
Proof. reflexivity. Qed.

Lemma append_empty_r (a : string) : a ++ "" = a.
Proof.
  induction a as [|c a IH]; [reflexivity |].
  now rewrite append_cons, IH.
Qed.

Lemma prefix_split (q s : string) :
  String.prefix q s = true -> exists b, s = q ++ b.
Proof.
  revert s. induction q as [|c q IH]; intros s H.
  - now exists s.
  - destruct s as [|c' s]; simpl in H; [discriminate |].
    destruct (ascii_dec c c') as [<- |]; [| discriminate].
    destruct (IH s H) as [b ->]. now exists b.
Qed.

(** [s.includes(q)] holds exactly when [q] occurs inside [s]. *)
Lemma includes_split (s q : string) :
  includes s q = true <-> exists a b, s = a ++ q ++ b.
Proof.
  split.
  - induction s as [|c s IH]; intros H.
    + destruct q; [now exists "", "" | discriminate].
    + change (String.prefix q (String c s) || includes s q = true) in H.
      apply orb_true_iff in H. destruct H as [H | H].
      * apply prefix_split in H. destruct H as [b Hb]. now exists "", b.
      * destruct (IH H) as (a & b & ->). now exists (String c a), b.
  - intros (a & b & ->). apply includes_app.
Qed.

Lemma includes_trans (s q' q : string) :
  includes s q' = true -> includes q' q = true -> includes s q = true.
Proof.
  rewrite !includes_split. intros (a & b & ->) (a' & b' & ->).
  exists (a ++ a'), (b' ++ b). now rewrite !string_app_assoc.
Qed.

Lemma includes_in_empty (q : string) : includes "" q = true -> q = "".
Proof.
  rewrite includes_split. intros (a & b & H).
  destruct a; [| discriminate]. now destruct q.
Qed.

Lemma toLowerCase_app (a b : string) :
  toLowerCase (a ++ b) = toLowerCase a ++ toLowerCase b.
Proof.
  induction a as [|c a IH]; [reflexivity |].
  rewrite append_cons. simpl. now rewrite IH, append_cons.
Qed.

Lemma includes_toLowerCase (s q : string) :
  includes s q = true -> includes (toLowerCase s) (toLowerCase q) = true.
Proof.
  rewrite !includes_split. intros (a & b & ->).
  exists (toLowerCase a), (toLowerCase b). now rewrite !toLowerCase_app.
Qed.

(** A patient matched by a query is matched by every query found inside
    it. *)
Lemma matches_weaken (q' q : string) (p : PatientList.Patient) :
  includes q' q = true ->
  PatientList.matches q' p = true -> PatientList.matches q p = true.
Proof.
  intros Hq. unfold PatientList.matches.
  destruct (String.eqb_spec q' "") as [-> | Hne].
  - apply includes_in_empty in Hq. subst q. reflexivity.
  - cbn [orb]. rewrite !orb_true_iff.
    intros [[H | H] | H]; apply (fun H => includes_trans _ _ _ H Hq) in H;
      rewrite H; auto using orb_true_r.
Qed.

Lemma filter_refine {A : Type} (p p' : A -> bool) (l : list A) :
  (forall x, p' x = true -> p x = true) ->
  List.filter p' (List.filter p l) = List.filter p' l.
Proof.
  intros Himp. induction l as [|x l IH]; [reflexivity |].
  cbn [List.filter]. destruct (p x) eqn:Ep.
  - cbn [List.filter]. now rewrite IH.
  - destruct (p' x) eqn:Ep'; [| exact IH].
    apply Himp in Ep'. congruence.
Qed.

(** X7. Extending an ASCII search text only narrows the list: when the
    text [q] occurs inside the ASCII text [q'], searching for [q'] within
    the rows found for [q] gives the rows found for [q'] outright, so
    every patient shown for [q'] is shown for [q]; and the empty text
    shows every patient.  (Lower-casing is letter by letter on ASCII
    text, so [q] lower-cased still occurs inside [q'] lower-cased; the
    patients' own fields enter only as the texts searched in.) *)
Theorem search_narrows :
  forall (ps : list PatientList.Patient) (q q' : string),
    is_ascii q' = true ->
    includes q' q = true ->
    PatientList.filterBy q' (PatientList.filterBy q ps) = PatientList.filterBy q' ps
    /\ (forall p, In p (PatientList.filterBy q' ps) -> In p (PatientList.filterBy q ps))
    /\ PatientList.filtered (Some ps) "" = ps.
Proof.
  intros ps q q' _ Hq.
  assert (Himp : forall p,
             PatientList.matches (toLowerCase q') p = true ->
             PatientList.matches (toLowerCase q) p = true).
  { intros p. apply matches_weaken. now apply includes_toLowerCase. }
  split; [| split].
  - unfold PatientList.filterBy. now apply filter_refine.
  - intros p. unfold PatientList.filterBy. rewrite !filter_In.
    intros [Hin Hm]. auto.
  - simpl. unfold PatientList.filterBy. simpl.
    induction ps as [|p ps IH]; [reflexivity |].
    cbn [List.filter]. unfold PatientList.matches at 1. simpl. now rewrite IH.
Qed.

Lemma search_narrows_witness :
  let mk := fun (first last : string) (town : option string) =>
    {| PatientList.patient_id := None; PatientList.first_name := first;
       PatientList.last_name := last; PatientList.age := None;
       PatientList.wireless_phone := None; PatientList.home_phone := None;
       PatientList.work_phone := None; PatientList.address := None;
       PatientList.city := town; PatientList.status := None |} in
  let ps := [mk "Jane" "Doe" (Some "Reno"); mk "John" "Dorn" None;
             mk "Al" "Adams" (Some "Dover")] in
  PatientList.filterBy "DOE" (PatientList.filterBy "DO" ps)
  = PatientList.filterBy "DOE" ps
  /\ PatientList.filterBy "DOE" ps = [mk "Jane" "Doe" (Some "Reno")]
  /\ PatientList.filterBy "DO" ps = ps.
Proof.
  intros mk ps. split; [| split; reflexivity].
  exact (proj1 (search_narrows ps "DO" "DOE" eq_refl eq_refl)).
Defined.

(** ** Slices and pages *)

Section SliceFacts.
Context {A : Type}.
Implicit Types l : list A.

Lemma slice_window l (s e : Z) :
  (0 <= s <= e)%Z ->
  JSArray.slice l s e
  = firstn (Z.to_nat (e - s)) (skipn (Z.to_nat s) l).
Proof.
  intros Hse. unfold JSArray.slice.
  destruct (s <? 0)%Z eqn:Es; [apply Z.ltb_lt in Es; lia |].
  destruct (e <? 0)%Z eqn:Ee; [apply Z.ltb_lt in Ee; lia |].
  destruct (Z_le_gt_dec (Z.of_nat (List.length l)) s) as [Hout | Hin].
  - rewrite Z.min_r by lia.
    rewrite !(List.skipn_all2 l) by lia. now rewrite !List.firstn_nil.
  - rewrite (Z.min_l s) by lia.
    destruct (Z_le_gt_dec e (Z.of_nat (List.length l))) as [He | He].
    + now rewrite Z.min_l by lia.
    + rewrite Z.min_r by lia.
      rewrite !List.firstn_all2; [reflexivity | |];
        rewrite List.length_skipn; lia.
Qed.

Lemma slice_length_le l (s e : Z) :
  (s <= e)%Z ->
  (List.length (JSArray.slice l s e) <= Z.to_nat (e - s))%nat.
Proof.
  intros Hse. unfold JSArray.slice.
  etransitivity; [apply List.firstn_le_length |].
  destruct (s <? 0)%Z eqn:Es, (e <? 0)%Z eqn:Ee;
    try apply Z.ltb_lt in Es; try apply Z.ltb_ge in Es;
    try apply Z.ltb_lt in Ee; try apply Z.ltb_ge in Ee; lia.
Qed.

Lemma firstn_In (n : nat) l (x : A) : In x (firstn n l) -> In x l.
Proof.
  intros H. rewrite <- (List.firstn_skipn n l). apply in_or_app. now left.
Qed.

Lemma skipn_In (n : nat) l (x : A) : In x (skipn n l) -> In x l.
Proof.
  intros H. rewrite <- (List.firstn_skipn n l). apply in_or_app. now right.
Qed.

Lemma slice_In l (s e : Z) (x : A) : In x (JSArray.slice l s e) -> In x l.
Proof. unfold JSArray.slice. intros H. eapply skipn_In, firstn_In, H. Qed.

Lemma StronglySorted_app_l (R : A -> A -> Prop) l1 l2 :
  StronglySorted R (l1 ++ l2)%list -> StronglySorted R l1.
Proof.
  induction l1 as [|x l1 IH]; simpl; [constructor |].
  intros H. inversion H as [|? ? Hs Hx]; subst.
  constructor; [now apply IH |].
  apply List.Forall_app in Hx. tauto.
Qed.

Lemma slice_sorted (R : A -> A -> Prop) l (s e : Z) :
  StronglySorted R l -> StronglySorted R (JSArray.slice l s e).
Proof.
  intros H. unfold JSArray.slice.
  match goal with |- StronglySorted R (firstn ?n (skipn ?k l)) =>
    apply (StronglySorted_app_l R _ (skipn n (skipn k l)));
    rewrite List.firstn_skipn;
    apply (StronglySorted_app_r R (firstn k l));
    now rewrite List.firstn_skipn
  end.
Qed.

Lemma firstn_plus (a b : nat) l :
  firstn (a + b) l = (firstn a l ++ firstn b (skipn a l))%list.
Proof.
  revert l. induction a as [|a IH]; intros l; [reflexivity |].
  destruct l as [|x l]; simpl.
  - now rewrite List.firstn_nil.
  - now rewrite IH.
Qed.

Lemma chunks_concat (d T : nat) l :
  flat_map (fun i => firstn d (skipn (i * d) l)) (seq 0 T) = firstn (T * d) l.
Proof.
  induction T as [|T IH]; [reflexivity |].
  rewrite seq_S, flat_map_app, IH. simpl.
  rewrite app_nil_r, <- firstn_plus. f_equal. lia.
Qed.

Lemma flat_map_ext_in {B : Type} (f g : B -> list A) (xs : list B) :
  (forall x, In x xs -> f x = g x) -> flat_map f xs = flat_map g xs.
Proof.
  induction xs as [|x xs IH]; intros H; [reflexivity |].
  simpl. rewrite (H x) by now left. rewrite IH; [reflexivity |].
  intros y Hy. apply H. now right.
Qed.

(** The pages of [size] rows, numbered from 1, laid end to end are the
    list, once there are enough of them. *)
Lemma pages_concat (size : Z) (T : nat) l :
  (0 < size)%Z ->
  (Z.of_nat (List.length l) <= Z.of_nat T * size)%Z ->
  flat_map (fun i => JSArray.slice l ((Z.of_nat i + 1 - 1) * size)
                       ((Z.of_nat i + 1) * size))
    (seq 0 T) = l.
Proof.
  intros Hsize Hlen.
  rewrite (flat_map_ext_in _
             (fun i => firstn (Z.to_nat size)
                         (skipn (i * Z.to_nat size) l))).
  - rewrite chunks_concat. apply List.firstn_all2. nia.
  - intros i _. rewrite slice_window by nia. f_equal; [f_equal; nia |].
    f_equal. nia.
Qed.

(** A page within range is never empty, and is full unless it is the
    last. *)
Lemma page_start_in_range (size pg n : Z) :
  (0 < size)%Z -> (0 < n)%Z ->
  (pg <= Z.max 1 (JSArray.ceil_div n size))%Z ->
  ((pg - 1) * size < n)%Z.
Proof.
  intros Hsize Hn Hmax.
  pose proof (ceil_div_spec n size Hsize) as Hceil.
  destruct (Z.max_spec 1 (JSArray.ceil_div n size)) as [[_ E] | [_ E]];
    rewrite E in Hmax; nia.
Qed.

(** A page within range is never empty, and is full unless it is the
    last. *)
Lemma page_length (size pg : Z) l :
  (0 < size)%Z -> (1 <= pg)%Z ->
  (pg <= Z.max 1 (JSArray.ceil_div (Z.of_nat (List.length l)) size))%Z ->
  l <> [] ->
  Z.of_nat (List.length (JSArray.slice l ((pg - 1) * size) (pg * size)))
  = Z.min size (Z.of_nat (List.length l) - (pg - 1) * size)
  /\ JSArray.slice l ((pg - 1) * size) (pg * size) <> [].
Proof.
  intros Hsize Hpg Hmax Hne.
  assert (Hpos : (0 < Z.of_nat (List.length l))%Z).
  { destruct l; [congruence | simpl; lia]. }
  pose proof (page_start_in_range size pg _ Hsize Hpos Hmax) as Hstart.
  assert (Hlen : Z.of_nat (List.length (JSArray.slice l ((pg - 1) * size) (pg * size)))
                 = Z.min size (Z.of_nat (List.length l) - (pg - 1) * size)).
  { rewrite slice_window by nia.
    rewrite List.length_firstn, List.length_skipn. nia. }
  split; [exact Hlen |].
  intros Hnil. rewrite Hnil in Hlen. simpl in Hlen. lia.
Qed.

End SliceFacts.

(** ** What the patient table shows *)

Lemma sorted_In (patients : option (list PatientList.Patient))
    (s : PatientList.State) (p : PatientList.Patient) :
  In p (PatientList.sorted patients s) ->
  (exists ps, patients = Some ps /\ In p ps)
  /\ PatientList.matches (toLowerCase (PatientList.search s)) p = true.
Proof.
  unfold PatientList.sorted, PatientList.sortBy. intros H.
  apply (Permutation_in _ (sort_perm _ _)) in H.
  destruct patients as [ps|]; simpl in H; [| contradiction].
  unfold PatientList.filterBy in H. apply filter_In in H.
  destruct H as [Hin Hm]. split; [now exists ps | exact Hm].
Qed.

(** X8. Every row of the page on display is a patient of the props that
    matches the search text; a page never holds more than ten rows, and
    its rows stand in the order of the comparator in force. *)
Theorem displayed_rows_sound :
  forall (patients : option (list PatientList.Patient)) (s : PatientList.State),
    (List.length (PatientList.pageData patients s) <= 10)%nat
    /\ (forall p : PatientList.Patient,
          In p (PatientList.pageData patients s) ->
          (exists ps, patients = Some ps /\ In p ps)
          /\ PatientList.matches (toLowerCase (PatientList.search s)) p = true)
    /\ StronglySorted
         (fun a b => (PatientList.compareFn (PatientList.sortKey s)
                        (PatientList.sortDir s) a b <= 0)%Z)
         (PatientList.pageData patients s).
Proof.
  intros patients s. unfold PatientList.pageData. split; [| split].
  - etransitivity; [apply slice_length_le |]; unfold PatientList.PAGE_SIZE; lia.
  - intros p Hp. apply slice_In in Hp. now apply sorted_In.
  - apply slice_sorted. apply sortBy_sorted.
Qed.

Lemma safePage_within (size pg rows : Z) :
  (1 <= pg <= Z.max 1 (JSArray.ceil_div rows size))%Z ->
  Z.min pg (Z.max 1 (JSArray.ceil_div rows size)) = pg.
Proof. lia. Qed.

Lemma totalPages_enough (size rows : Z) :
  (0 < size)%Z ->
  (rows <= Z.of_nat (Z.to_nat (Z.max 1 (JSArray.ceil_div rows size))) * size)%Z.
Proof.
  intros Hsize. pose proof (ceil_div_spec rows size Hsize). nia.
Qed.

(** X9. The pages partition the rows: laying the pages 1 to
    [totalPages] end to end gives back the sorted patients (resp. the
    account's transactions), each row once and in order -- with ten rows
    to a page in the patient list and fifteen in the account tab. *)
Theorem pages_partition_rows :
  (forall (patients : option (list PatientList.Patient)) (s : PatientList.State),
      flat_map
        (fun i => PatientList.pageData patients
                    (PatientList.setPage (Z.of_nat i + 1) s))
        (seq 0 (Z.to_nat (PatientList.totalPages (PatientList.rows_of patients s))))
      = PatientList.sorted patients s)
  /\ (forall (txs : option (list value)) (s : PatientReport.State),
        flat_map
          (fun i => PatientReport.pageTx txs
                      (PatientReport.setAcctPage (Z.of_nat i + 1) s))
          (seq 0 (Z.to_nat (PatientReport.totalPages (PatientReport.rows_of txs))))
        = PatientReport.transactions_of txs).
Proof.
  split.
  - intros patients s.
    rewrite (flat_map_ext_in _
               (fun i => JSArray.slice (PatientList.sorted patients s)
                           ((Z.of_nat i + 1 - 1) * PatientList.PAGE_SIZE)
                           ((Z.of_nat i + 1) * PatientList.PAGE_SIZE))).
    + apply pages_concat; [reflexivity |].
      apply (totalPages_enough PatientList.PAGE_SIZE). reflexivity.
    + intros i Hi. apply in_seq in Hi.
      unfold PatientList.pageData, PatientList.setPage. cbn [PatientList.page].
      change (PatientList.rows_of patients _) with (PatientList.rows_of patients s).
      change (PatientList.sorted patients _) with (PatientList.sorted patients s).
      unfold PatientList.safePage, PatientList.totalPages in *.
      rewrite safePage_within by lia. reflexivity.
  - intros txs s.
    rewrite (flat_map_ext_in _
               (fun i => JSArray.slice (PatientReport.transactions_of txs)
                           ((Z.of_nat i + 1 - 1) * PatientReport.perPage)
                           ((Z.of_nat i + 1) * PatientReport.perPage))).
    + apply pages_concat; [reflexivity |].
      apply (totalPages_enough PatientReport.perPage). reflexivity.
    + intros i Hi. apply in_seq in Hi.
      unfold PatientReport.pageTx, PatientReport.setAcctPage.
      cbn [PatientReport.acctPage].
      unfold PatientReport.safePage, PatientReport.totalPages in *.
      rewrite safePage_within by lia. reflexivity.
Qed.

(** X10. After any session the page on display is not blank while there
    are rows to show: it holds the ten rows (fifteen transactions) that
    start at its offset, or as many as are left. *)
Theorem current_page_not_blank :
  (forall (trace : list (option (list PatientList.Patient) * PatientList.event))
          (patients : option (list PatientList.Patient)),
      let s := PatientList.run trace in
      let n := PatientList.rows_of patients s in
      PatientList.sorted patients s <> [] ->
      PatientList.pageData patients s <> []
      /\ Z.of_nat (List.length (PatientList.pageData patients s))
         = Z.min 10 (n - (PatientList.safePage (PatientList.page s) n - 1) * 10))
  /\ (forall (trace : list (option (list value) * PatientReport.event))
             (txs : option (list value)),
        let s := PatientReport.run trace in
        let n := PatientReport.rows_of txs in
        PatientReport.transactions_of txs <> [] ->
        PatientReport.pageTx txs s <> []
        /\ Z.of_nat (List.length (PatientReport.pageTx txs s))
           = Z.min 15 (n - (PatientReport.safePage (PatientReport.acctPage s) n - 1) * 15)).
Proof.
  split.
  - intros trace patients s n Hne.
    pose proof (pager_safe_range PatientList.PAGE_SIZE (PatientList.page s) n
                  (patient_list_run_page trace)) as Hsp.
    unfold PatientList.pageData.
    destruct (page_length PatientList.PAGE_SIZE
                (PatientList.safePage (PatientList.page s) n)
                (PatientList.sorted patients s)) as [Hlen Hnb];
      try assumption; try reflexivity; try apply Hsp.
    split; [exact Hnb | exact Hlen].
  - intros trace txs s n Hne.
    pose proof (pager_safe_range PatientReport.perPage (PatientReport.acctPage s) n
                  (patient_report_run_page trace)) as Hsp.
    unfold PatientReport.pageTx.
    destruct (page_length PatientReport.perPage
                (PatientReport.safePage (PatientReport.acctPage s) n)
                (PatientReport.transactions_of txs)) as [Hlen Hnb];
      try assumption; try reflexivity; try apply Hsp.
    split; [exact Hnb | exact Hlen].
Qed.

Lemma current_page_not_blank_witness :
  let one :=
    {| PatientList.patient_id := None; PatientList.first_name := "Jane";
       PatientList.last_name := "Doe"; PatientList.age := None;
       PatientList.wireless_phone := None; PatientList.home_phone := None;
       PatientList.work_phone := None; PatientList.address := None;
       PatientList.city := None; PatientList.status := None |} in
  let twelve := Some (repeat one 12) in
  let trace := [(twelve, PatientList.NextPage); (twelve, PatientList.NextPage)] in
  PatientList.page (PatientList.run trace) = 2%Z
  /\ PatientList.pageData twelve (PatientList.run trace) = [one; one]
  /\ PatientList.pageData (Some [one]) (PatientList.run trace) <> [].
Proof.
  intros one twelve trace. split; [reflexivity | split; [reflexivity |]].
  refine (proj1 (proj1 current_page_not_blank trace (Some [one]) _)).
  intros H. vm_compute in H. discriminate H.
Defined.

(** X11. Paging forward and then back returns to the page that was
    shown: after any session, if the Next button is enabled, a click on
    Next followed by a click on Prev shows the same page again, the
    search text and the sort left as they were; and Next moves exactly
    one page on. *)
Theorem next_then_prev_returns :
  forall (trace : list (option (list PatientList.Patient) * PatientList.event))
         (patients : option (list PatientList.Patient)),
    let s := PatientList.run trace in
    let n := PatientList.rows_of patients s in
    let s1 := PatientList.handle patients PatientList.NextPage s in
    let s2 := PatientList.handle patients PatientList.PrevPage s1 in
    (PatientList.safePage (PatientList.page s) n < PatientList.totalPages n)%Z ->
    PatientList.safePage (PatientList.page s1) n
    = (PatientList.safePage (PatientList.page s) n + 1)%Z
    /\ PatientList.safePage (PatientList.page s2) n
       = PatientList.safePage (PatientList.page s) n
    /\ PatientList.sorted patients s2 = PatientList.sorted patients s.
Proof.
  intros trace patients s n s1 s2 Hnext.
  pose proof (patient_list_run_page trace) as Hpage. fold s in Hpage.
  assert (Hsp : (1 <= PatientList.safePage (PatientList.page s) n)%Z).
  { unfold PatientList.safePage, PatientList.totalPages in *. lia. }
  assert (E1 : s1 = PatientList.setPage
                      (PatientList.safePage (PatientList.page s) n + 1) s).
  { subst s1. unfold PatientList.handle. fold n.
    replace (1 <? PatientList.totalPages n)%Z with true
      by (symmetry; apply Z.ltb_lt; lia).
    replace (PatientList.totalPages n <=? PatientList.safePage (PatientList.page s) n)%Z
      with false by (symmetry; apply Z.leb_gt; lia).
    reflexivity. }
  assert (Hn1 : PatientList.rows_of patients s1 = n) by (now rewrite E1).
  assert (Hsp1 : PatientList.safePage (PatientList.page s1) n
                 = (PatientList.safePage (PatientList.page s) n + 1)%Z).
  { rewrite E1. cbn [PatientList.page PatientList.setPage].
    unfold PatientList.safePage at 1. lia. }
  assert (E2 : s2 = PatientList.setPage
                      (PatientList.safePage (PatientList.page s) n) s1).
  { subst s2. unfold PatientList.handle. rewrite Hn1, Hsp1.
    replace (1 <? PatientList.totalPages n)%Z with true
      by (symmetry; apply Z.ltb_lt; lia).
    replace (PatientList.safePage (PatientList.page s) n + 1 <=? 1)%Z
      with false by (symmetry; apply Z.leb_gt; lia).
    cbn [andb negb]. unfold PatientList.setPage. f_equal. lia. }
  split; [exact Hsp1 |]. split.
  - rewrite E2. cbn [PatientList.page PatientList.setPage].
    unfold PatientList.safePage in *. lia.
  - now rewrite E2, E1.
Qed.

Lemma next_then_prev_returns_witness :
  let one :=
    {| PatientList.patient_id := None; PatientList.first_name := "Jane";
       PatientList.last_name := "Doe"; PatientList.age := None;
       PatientList.wireless_phone := None; PatientList.home_phone := None;
       PatientList.work_phone := None; PatientList.address := None;
       PatientList.city := None; PatientList.status := None |} in
  let many := Some (repeat one 25) in
  let s := PatientList.run [(many, PatientList.NextPage)] in
  PatientList.page s = 2%Z
  /\ PatientList.safePage
       (PatientList.page
          (PatientList.handle many PatientList.PrevPage
             (PatientList.handle many PatientList.NextPage s))) 25
     = PatientList.safePage (PatientList.page s) 25.
Proof.
  intros one many s. split; [reflexivity |].
  exact (proj1 (proj2 (next_then_prev_returns
                         [(many, PatientList.NextPage)] many eq_refl))).
Defined.

(** X12. Sorting only reorders: under any sort key and direction the
    sorted rows are a rearrangement of the filtered rows, so a click on
    a column header changes neither which patients are listed nor the
    search text or page state; and a second click on the header of the
    active column restores the state the first click found. *)
Theorem toggle_sort_only_reorders :
  forall (patients : option (list PatientList.Patient)) (s : PatientList.State)
         (key : PatientList.SortKey),
    Permutation (PatientList.sorted patients (PatientList.toggleSort key s))
      (PatientList.sorted patients s)
    /\ Permutation (PatientList.sorted patients s)
         (PatientList.filtered patients (PatientList.search s))
    /\ PatientList.search (PatientList.toggleSort key s) = PatientList.search s
    /\ PatientList.page (PatientList.toggleSort key s) = PatientList.page s
    /\ PatientList.toggleSort (PatientList.sortKey s)
         (PatientList.toggleSort (PatientList.sortKey s) s) = s.
Proof.
  intros patients s key.
  assert (Hperm : forall s', Permutation (PatientList.sorted patients s')
                    (PatientList.filtered patients (PatientList.search s'))).
  { intros s'. apply sort_perm. }
  assert (Hsearch : PatientList.search (PatientList.toggleSort key s)
                    = PatientList.search s).
  { unfold PatientList.toggleSort.
    now destruct (PatientList.SortKey_eqb _ _). }
  split; [| split; [| split; [| split]]].
  - rewrite (Hperm (PatientList.toggleSort key s)), Hsearch.
    symmetry. apply Hperm.
  - apply Hperm.
  - exact Hsearch.
  - unfold PatientList.toggleSort.
    now destruct (PatientList.SortKey_eqb _ _).
  - destruct s as [q k d pg]. unfold PatientList.toggleSort. simpl.
    destruct k; simpl; destruct d; reflexivity.
Qed.



(* ===================================================================== *)
(** * Further properties of the dental chart                              *)
(* ===================================================================== *)

Lemma mapM_Forall2 {A B : Type} (f : A -> result B) (l : list A) (ys : list B) :
  mapM f l = Ok ys -> Forall2 (fun x y => f x = Ok y) l ys.
Proof.
  revert ys. induction l as [|x l IH]; intros ys H; simpl in H.
  - inversion H. constructor.
  - unfold bind in H. destruct (f x) as [y|] eqn:Ex; [| discriminate].
    destruct (mapM f l) as [ys'|]; [| discriminate].
    inversion H; subst. constructor; [exact Ex | now apply IH].
Qed.

Lemma mapM_ok {A B : Type} (f : A -> result B) (l : list A) :
  (forall x, In x l -> exists y, f x = Ok y) -> exists ys, mapM f l = Ok ys.
Proof.
  induction l as [|x l IH]; intros H; simpl.
  - now exists [].
  - destruct (H x (or_introl eq_refl)) as [y Hy]. rewrite Hy.
    destruct IH as [ys Hys]; [intros z Hz; apply H; now right |].
    rewrite Hys. simpl. now exists (y :: ys).
Qed.

Lemma mapM_throw {A B : Type} (f : A -> result B) (l : list A) (x : A) (e : exn) :
  In x l -> f x = Throw e -> exists e', mapM f l = Throw e'.
Proof.
  induction l as [|z l IH]; intros Hin Hx; [contradiction |].
  simpl. destruct Hin as [-> | Hin].
  - rewrite Hx. simpl. now exists e.
  - destruct (f z); simpl; [| eauto].
    destruct (IH Hin Hx) as [e' ->]. simpl. now exists e'.
Qed.

Lemma renderTooth_inv (c : PatientChart.Colors)
    (m : gmap Z PatientChart.ToothEntry) (sel : option Z) (n : Z)
    (v : PatientChart.ToothView) :
  PatientChart.renderTooth c m sel n = Ok v ->
  PatientChart.view_num v = n
  /\ PatientChart.view_selected v
     = match sel with Some k => (k =? n)%Z | None => false end
  /\ PatientChart.condition_of (m !! n) = Ok (PatientChart.view_condition v).
Proof.
  unfold PatientChart.renderTooth, bind.
  destruct (PatientChart.condition_of (m !! n)) as [s|]; [| discriminate].
  intros H. inversion H; subst. simpl. auto.
Qed.


Lemma Forall2_view_num (c : PatientChart.Colors)
    (m : gmap Z PatientChart.ToothEntry) (sel : option Z)
    (ns : list Z) (vs : list PatientChart.ToothView) :
  Forall2 (fun n v => PatientChart.renderTooth c m sel n = Ok v) ns vs ->
  List.map PatientChart.view_num vs = ns
  /\ Forall (fun v => PatientChart.view_selected v
                      = match sel with
                        | Some k => (k =? PatientChart.view_num v)%Z
                        | None => false
                        end) vs.
Proof.
  induction 1 as [|n v ns vs Hv _ [IHn IHs]]; [split; constructor |].
  apply renderTooth_inv in Hv. destruct Hv as (Hn & Hs & _).
  split; simpl.
  - now rewrite Hn, IHn.
  - constructor; [now rewrite Hn | exact IHs].
Qed.


Lemma grid_teeth_NoDup : List.NoDup PatientChart.grid_teeth.
Proof.
  apply (List.NoDup_map_inv (fun n : Z => Z.to_nat n)).
  vm_compute. repeat (constructor; [simpl; intuition discriminate |]).
  constructor.
Qed.


Lemma renderToothGrid_inv (c : PatientChart.Colors)
    (m : gmap Z PatientChart.ToothEntry) (sel : option Z)
    (g : PatientChart.GridView) :
  PatientChart.renderToothGrid c m sel = Ok g ->
  Forall2 (fun n v => PatientChart.renderTooth c m sel n = Ok v)
    PatientChart.grid_teeth
    (PatientChart.upper_cells g ++ PatientChart.lower_cells g)%list
  /\ PatientChart.detail g = PatientChart.selectedData m sel.
Proof.
  unfold PatientChart.renderToothGrid, bind.
  destruct (mapM _ PatientChart.upper) as [u|] eqn:Eu; [| discriminate].
  destruct (mapM _ PatientChart.lower) as [lo|] eqn:El; [| discriminate].
  intros H. inversion H; subst. simpl. split; [| reflexivity].
  unfold PatientChart.grid_teeth.
  apply Forall2_app; now apply mapM_Forall2.
Qed.



Lemma filter_selected_none (vs : list PatientChart.ToothView) :
  Forall (fun v => PatientChart.view_selected v = false) vs ->
  List.filter PatientChart.view_selected vs = [].
Proof.
  induction 1 as [|v vs Hv _ IH]; [reflexivity |].
  cbn [List.filter]. now rewrite Hv.
Qed.

Lemma filter_selected_one (k : Z) (vs : list PatientChart.ToothView) :
  List.NoDup (List.map PatientChart.view_num vs) ->
  In k (List.map PatientChart.view_num vs) ->
  Forall (fun v => PatientChart.view_selected v
                   = (k =? PatientChart.view_num v)%Z) vs ->
  List.map PatientChart.view_num (List.filter PatientChart.view_selected vs) = [k].
Proof.
  induction vs as [|v vs IH]; intros Hnd Hin Hall; [contradiction |].
  cbn [List.map] in Hnd, Hin. apply List.NoDup_cons_iff in Hnd.
  destruct Hnd as [Hnotin Hnd'].
  apply List.Forall_cons_iff in Hall. destruct Hall as [Hv Hall'].
  cbn [List.filter]. rewrite Hv.
  destruct (Z.eqb_spec k (PatientChart.view_num v)) as [-> | Hne].
  - rewrite filter_selected_none; [reflexivity |].
    rewrite List.Forall_forall in Hall' |- *. intros w Hw.
    rewrite (Hall' w Hw). apply Z.eqb_neq. intros E. apply Hnotin.
    rewrite E. now apply in_map.
  - destruct Hin as [E | Hin]; [congruence |]. now apply IH.
Qed.

(** X15. A click on a tooth of the grid selects that tooth alone, and a
    click on the selected tooth clears the selection: in the grid drawn
    after the click, the highlighted cells are the clicked tooth only,
    or none when it was the selected one. *)
Theorem tooth_click_toggles :
  forall (c : PatientChart.Colors) (m : gmap Z PatientChart.ToothEntry)
         (sel : option Z) (n : Z) (g : PatientChart.GridView),
    (1 <= n <= 32)%Z ->
    PatientChart.renderToothGrid c m (PatientChart.clickTooth sel n) = Ok g ->
    List.map PatientChart.view_num
      (List.filter PatientChart.view_selected
         (PatientChart.upper_cells g ++ PatientChart.lower_cells g)%list)
    = match sel with
      | Some k => if (k =? n)%Z then [] else [n]
      | None => [n]
      end.
Proof.
  intros c m sel n g Hn Hg.
  apply renderToothGrid_inv in Hg. destruct Hg as [Hcells _].
  apply Forall2_view_num in Hcells. destruct Hcells as [Hnums Hsel].
  assert (Hclick : PatientChart.clickTooth sel n
                   = match sel with
                     | Some k => if (k =? n)%Z then None else Some n
                     | None => Some n
                     end).
  { unfold PatientChart.clickTooth. now destruct sel. }
  rewrite Hclick in Hsel.
  assert (Hone : forall sel', sel' = Some n ->
            Forall (fun v => PatientChart.view_selected v
                     = match sel' with
                       | Some k => (k =? PatientChart.view_num v)%Z
                       | None => false
                       end)
              (PatientChart.upper_cells g ++ PatientChart.lower_cells g)%list ->
            List.map PatientChart.view_num
              (List.filter PatientChart.view_selected
                 (PatientChart.upper_cells g ++ PatientChart.lower_cells g)%list)
            = [n]).
  { intros sel' -> H. apply filter_selected_one.
    - rewrite Hnums. apply grid_teeth_NoDup.
    - rewrite Hnums. now apply grid_teeth_range.
    - exact H. }
  destruct sel as [k|]; [| now apply (Hone (Some n))].
  destruct (k =? n)%Z; [| now apply (Hone (Some n))].
  now rewrite filter_selected_none.
Qed.

Lemma tooth_click_toggles_witness :
  exists g,
    PatientChart.renderToothGrid (PatientChart.useColors PatientChart.dark)
      (PatientChart.toothMap []) (PatientChart.clickTooth (Some 3%Z) 9) = Ok g
    /\ List.map PatientChart.view_num
         (List.filter PatientChart.view_selected
            (PatientChart.upper_cells g ++ PatientChart.lower_cells g)%list)
       = [9%Z].
Proof.
  destruct (PatientChart.renderToothGrid (PatientChart.useColors PatientChart.dark)
              (PatientChart.toothMap []) (PatientChart.clickTooth (Some 3%Z) 9))
    as [g|e] eqn:Hg; [| discriminate Hg].
  exists g. split; [reflexivity |].
  refine (tooth_click_toggles _ _ (Some 3%Z) 9 g _ Hg).
  split; intros H; discriminate H.
Defined.

(** ** The procedures tab *)





(* ===================================================================== *)
(** * Further properties of the patient report                            *)
(* ===================================================================== *)

Lemma get_prop_total (v : value) (k : string) :
  nullish v = false -> exists x, get_prop v k = Ok x.
Proof. destruct v; simpl; intros H; try discriminate; eauto. Qed.

(** [renderPlan] shows a card exactly when [plan?.carrier] is truthy. *)
Lemma renderPlan_total (plan : value) (title : string) :
  exists (pc : value) (r : option PatientReport.PlanCard),
    get_prop_opt plan "carrier" = Ok pc
    /\ PatientReport.renderPlan plan title = Ok r
    /\ (r = None <-> truthy pc = false)
    /\ (forall card, r = Some card ->
          PatientReport.card_title card = title
          /\ PatientReport.card_carrier card = pc).
Proof.
  unfold PatientReport.renderPlan, get_prop_opt.
  destruct plan as [| |b|n|s|items|props]; simpl.
  1-2: exists VUndefined, None; repeat split; intros; discriminate.
  - exists VUndefined, None. destruct b; repeat split; intros; discriminate.
  - exists VUndefined, None.
    destruct (n =? 0)%Z; repeat split; intros; discriminate.
  - exists VUndefined, None.
    destruct (String.eqb s ""); repeat split; intros; discriminate.
  - exists VUndefined, None. repeat split; intros; discriminate.
  - exists (lookup_prop "carrier" props).
    destruct (truthy (lookup_prop "carrier" props)) eqn:E; simpl.
    + eexists. split; [reflexivity |]. split; [reflexivity |].
      split; [split; discriminate |].
      intros card H. inversion H. now split.
    + exists None. repeat split; intros; discriminate.
Qed.

(** X17. The insurance tab never contradicts itself: whenever its
    decisions are computed -- which of the two plan cards to produce and
    whether to produce the "No insurance information on file." notice --
    the notice is produced exactly when neither the primary nor the
    secondary plan card is; a card that is produced carries its fixed
    title and a truthy carrier.  And [report?.insurance ?? {}], on which
    the decisions are taken, never throws and is never null. *)
Theorem insurance_notice_iff_no_card :
  forall (insurance : value) (v : PatientReport.InsuranceView),
    PatientReport.renderInsurance insurance = Ok v ->
    (PatientReport.no_insurance_notice v = true
     <-> PatientReport.primary_card v = None
         /\ PatientReport.secondary_card v = None)
    /\ (forall card, PatientReport.primary_card v = Some card ->
          PatientReport.card_title card = "Primary Insurance"
          /\ truthy (PatientReport.card_carrier card) = true)
    /\ (forall card, PatientReport.secondary_card v = Some card ->
          PatientReport.card_title card = "Secondary Insurance"
          /\ truthy (PatientReport.card_carrier card) = true)
    /\ (forall report : value,
          exists i : value,
            PatientReport.insurance_of report = Ok i /\ nullish i = false).
Proof.
  intros insurance v H.
  assert (Hins : forall report : value,
             exists i, PatientReport.insurance_of report = Ok i
                       /\ nullish i = false).
  { intros report. unfold PatientReport.insurance_of, get_prop_opt, coalesce.
    destruct (nullish report) eqn:Er; simpl; [now exists (VObj []) |].
    destruct (get_prop_total report "insurance" Er) as [x ->]. simpl.
    destruct (nullish x) eqn:Ex; eauto. }
  unfold PatientReport.renderInsurance in H.
  destruct (get_prop insurance "primary") as [p|] eqn:Hp;
    cbn [bind] in H; [| discriminate H].
  destruct (renderPlan_total p "Primary Insurance")
    as (pc & r1 & Hpc & Hr1 & Hn1 & Hc1).
  rewrite Hr1 in H. cbn [bind] in H.
  destruct (get_prop insurance "secondary") as [s|] eqn:Hs;
    cbn [bind] in H; [| discriminate H].
  destruct (renderPlan_total s "Secondary Insurance")
    as (sc & r2 & Hsc & Hr2 & Hn2 & Hc2).
  rewrite Hr2 in H. cbn [bind] in H.
  assert (Hv : v = {| PatientReport.primary_card := r1;
                      PatientReport.secondary_card := r2;
                      PatientReport.no_insurance_notice :=
                        negb (truthy pc) && negb (truthy sc) |}).
  { unfold PatientReport.no_carrier in H.
    rewrite Hp in H. cbn [bind] in H. rewrite Hpc in H. cbn [bind] in H.
    destruct (truthy pc).
    - cbn [bind] in H. now injection H as <-.
    - rewrite Hs in H. cbn [bind] in H. rewrite Hsc in H. cbn [bind] in H.
      now injection H as <-. }
  subst v.
  cbn [PatientReport.no_insurance_notice PatientReport.primary_card
       PatientReport.secondary_card].
  split; [| split; [| split; [| exact Hins]]].
  - rewrite Hn1, Hn2, andb_true_iff, !negb_true_iff. tauto.
  - intros card Hcard. destruct (Hc1 card Hcard) as [Ht Hc].
    split; [exact Ht |]. rewrite Hc.
    destruct (truthy pc); [reflexivity |].
    pose proof (proj2 Hn1 eq_refl). congruence.
  - intros card Hcard. destruct (Hc2 card Hcard) as [Ht Hc].
    split; [exact Ht |]. rewrite Hc.
    destruct (truthy sc); [reflexivity |].
    pose proof (proj2 Hn2 eq_refl). congruence.
Qed.

Lemma insurance_notice_iff_no_card_witness :
  let insurance :=
    VObj [("primary", VObj [("carrier", VStr "")]);
          ("secondary", VObj [("carrier", VStr "Delta Dental")])] in
  let v :=
    {| PatientReport.primary_card := None;
       PatientReport.secondary_card :=
         Some {| PatientReport.card_title := "Secondary Insurance";
                 PatientReport.card_carrier := VStr "Delta Dental";
                 PatientReport.card_coverage := VObj [] |};
       PatientReport.no_insurance_notice := false |} in
  PatientReport.renderInsurance insurance = Ok v
  /\ (PatientReport.no_insurance_notice v = true
      <-> PatientReport.primary_card v = None
          /\ PatientReport.secondary_card v = None).
Proof.
  intros insurance v. split; [reflexivity |].
  exact (proj1 (insurance_notice_iff_no_card insurance v eq_refl)).
Defined.

(** A report with a secondary plan only, and one whose plans name no
    carrier. *)
Example insurance_samples :
  PatientReport.renderInsurance
    (VObj [("primary", VObj [("carrier", VStr "")]);
           ("secondary", VObj [("carrier", VStr "Delta Dental")])])
  = Ok {| PatientReport.primary_card := None;
          PatientReport.secondary_card :=
            Some {| PatientReport.card_title := "Secondary Insurance";
                    PatientReport.card_carrier := VStr "Delta Dental";
                    PatientReport.card_coverage := VObj [] |};
          PatientReport.no_insurance_notice := false |}
  /\ PatientReport.renderInsurance (VObj [("primary", VNull)])
     = Ok {| PatientReport.primary_card := None;
             PatientReport.secondary_card := None;
             PatientReport.no_insurance_notice := true |}.
Proof. split; reflexivity. Qed.

(** ** Coverage labels *)

Lemma upper_ascii_facts (c : ascii) :
  PatientReport.is_word (PatientReport.upper_ascii c) = PatientReport.is_word c
  /\ PatientReport.upper_ascii (PatientReport.upper_ascii c)
     = PatientReport.upper_ascii c
  /\ (PatientReport.upper_ascii c = "_"%char -> c = "_"%char).
Proof.
  destruct c as [[] [] [] [] [] [] [] []]; repeat split;
    try reflexivity; intros H; try discriminate H; reflexivity.
Qed.

Lemma underscores_to_spaces_length (s : string) :
  String.length (PatientReport.underscores_to_spaces s) = String.length s.
Proof. induction s as [|c s IH]; simpl; [reflexivity | now rewrite IH]. Qed.

Lemma capitalize_from_length (b : bool) (s : string) :
  String.length (PatientReport.capitalize_from b s) = String.length s.
Proof.
  revert b. induction s as [|c s IH]; intros b; simpl;
    [reflexivity | now rewrite IH].
Qed.

Lemma capitalize_from_idem (b : bool) (s : string) :
  PatientReport.capitalize_from b (PatientReport.capitalize_from b s)
  = PatientReport.capitalize_from b s.
Proof.
  revert b. induction s as [|c s IH]; intros b; [reflexivity |].
  cbn [PatientReport.capitalize_from].
  destruct (upper_ascii_facts c) as (Hw & Hu & _).
  destruct (PatientReport.is_word c) eqn:Ec, b; cbn [andb negb];
    rewrite ?Hw, ?Ec; cbn [andb negb]; rewrite ?Hu, IH; reflexivity.
Qed.

(** A string without underscore is one [underscores_to_spaces] leaves
    alone. *)
Lemma underscores_to_spaces_idem (s : string) :
  PatientReport.underscores_to_spaces (PatientReport.underscores_to_spaces s)
  = PatientReport.underscores_to_spaces s.
Proof.
  induction s as [|c s IH]; [reflexivity |].
  cbn [PatientReport.underscores_to_spaces]. rewrite IH.
  destruct (Ascii.eqb_spec c "_"); [reflexivity |].
  destruct (Ascii.eqb_spec c "_"); [contradiction | reflexivity].
Qed.

Lemma capitalize_keeps_no_underscore (b : bool) (s : string) :
  PatientReport.underscores_to_spaces s = s ->
  PatientReport.underscores_to_spaces (PatientReport.capitalize_from b s)
  = PatientReport.capitalize_from b s.
Proof.
  revert b. induction s as [|c s IH]; intros b H; [reflexivity |].
  cbn [PatientReport.underscores_to_spaces] in H. injection H as Hc Hs.
  assert (Hne : c <> "_"%char).
  { intros ->. discriminate Hc. }
  cbn [PatientReport.capitalize_from PatientReport.underscores_to_spaces].
  rewrite (IH _ Hs). f_equal.
  destruct (PatientReport.is_word c && negb b).
  - destruct (Ascii.eqb_spec (PatientReport.upper_ascii c) "_") as [E |];
      [| reflexivity].
    apply upper_ascii_facts in E. contradiction.
  - destruct (Ascii.eqb_spec c "_"); [contradiction | reflexivity].
Qed.

Lemma no_underscore_includes (s : string) :
  PatientReport.underscores_to_spaces s = s -> includes s "_" = false.
Proof.
  induction s as [|c s IH]; intros H; [reflexivity |].
  cbn [PatientReport.underscores_to_spaces] in H. injection H as Hc Hs.
  change (String.prefix "_" (String c s) || includes s "_" = false).
  rewrite (IH Hs), orb_false_r. cbn [String.prefix].
  destruct (ascii_dec "_" c) as [<- |]; [discriminate Hc | reflexivity].
Qed.

(** X18. The label a coverage key is shown under has the key's length,
    holds no underscore, and is a fixed point of the formatting (a label
    formats to itself); and the coverage lines never outnumber the
    entries and only show entries with a truthy value. *)
Theorem coverage_label_shape :
  forall k : string,
    String.length (PatientReport.coverageLabel k) = String.length k
    /\ includes (PatientReport.coverageLabel k) "_" = false
    /\ PatientReport.coverageLabel (PatientReport.coverageLabel k)
       = PatientReport.coverageLabel k
    /\ (forall entries : list (string * value),
          (List.length (PatientReport.coverageRows entries)
           <= List.length entries)%nat
          /\ Forall (fun row => truthy (snd row) = true)
               (PatientReport.coverageRows entries)).
Proof.
  intros k. unfold PatientReport.coverageLabel, PatientReport.capitalize_words.
  assert (Hclean : PatientReport.underscores_to_spaces
                     (PatientReport.capitalize_from false
                        (PatientReport.underscores_to_spaces k))
                   = PatientReport.capitalize_from false
                       (PatientReport.underscores_to_spaces k)).
  { apply capitalize_keeps_no_underscore, underscores_to_spaces_idem. }
  split; [| split; [| split]].
  - now rewrite capitalize_from_length, underscores_to_spaces_length.
  - now apply no_underscore_includes.
  - rewrite Hclean. apply capitalize_from_idem.
  - intros entries. unfold PatientReport.coverageRows. split.
    + rewrite List.length_map. apply List.filter_length_le.
    + apply List.Forall_forall. intros row Hrow.
      apply in_map_iff in Hrow. destruct Hrow as (kv & <- & Hkv).
      apply filter_In in Hkv. simpl. tauto.
Qed.

Example coverage_label_samples :
  PatientReport.coverageLabel "annual_max_benefit" = "Annual Max Benefit"
  /\ PatientReport.coverageLabel "x-rays" = "X-Rays"
  /\ PatientReport.coverageRows
       [("basic_restorative", VStr "80%"); ("ortho", VNull);
        ("major", VNum 50)]
     = [("Basic Restorative", VStr "80%"); ("Major", VNum 50)].
Proof. repeat split. Qed.

(* ===================================================================== *)
(** * Ascending against descending                                        *)
(* ===================================================================== *)

Lemma StronglySorted_snoc {A : Type} (R : A -> A -> Prop) (l : list A) (x : A) :
  StronglySorted R l -> Forall (fun y => R y x) l ->
  StronglySorted R (l ++ [x])%list.
Proof.
  induction 1 as [|a l Hs IH Ha]; intros Hx; simpl.
  - repeat constructor.
  - apply List.Forall_cons_iff in Hx. destruct Hx as [Hax Hx].
    constructor; [now apply IH |].
    apply List.Forall_app. split; [exact Ha | now constructor].
Qed.

Lemma StronglySorted_rev {A : Type} (R : A -> A -> Prop) (l : list A) :
  StronglySorted R l -> StronglySorted (fun a b => R b a) (rev l).
Proof.
  induction 1 as [|a l Hs IH Ha]; simpl; [constructor |].
  apply StronglySorted_snoc; [exact IH |].
  now apply List.Forall_rev.
Qed.

Lemma StronglySorted_weaken {A : Type} (R R' : A -> A -> Prop) (l : list A) :
  (forall a b, R a b -> R' a b) -> StronglySorted R l -> StronglySorted R' l.
Proof.
  intros Himp. induction 1 as [|a l Hs IH Ha]; constructor; [exact IH |].
  eapply List.Forall_impl; [| exact Ha]. intros b. apply Himp.
Qed.

Lemma filter_Permutation {A : Type} (p : A -> bool) (l1 l2 : list A) :
  Permutation l1 l2 -> Permutation (List.filter p l1) (List.filter p l2).
Proof.
  induction 1 as [| x l1 l2 _ IH | x y l | l1 l2 l3 _ IH1 _ IH2];
    cbn [List.filter].
  - constructor.
  - destruct (p x); [now constructor | exact IH].
  - destruct (p x), (p y); try reflexivity. apply perm_swap.
  - now transitivity (List.filter p l2).
Qed.

Lemma short_Permutation_eq {A : Type} (l1 l2 : list A) :
  (List.length l1 <= 1)%nat -> Permutation l1 l2 -> l1 = l2.
Proof.
  intros Hlen Hperm. destruct l1 as [|x [|y l1]]; simpl in Hlen; [| | lia].
  - symmetry. now apply Permutation_nil.
  - symmetry. now apply Permutation_length_1_inv.
Qed.

Lemma key_order_Eq_iff (k : PatientList.SortKey) (a b : PatientList.Patient) :
  PatientList.key_order k a b = Eq
  <-> match k with
      | PatientList.K_age => PatientList.age_key a = PatientList.age_key b
      | _ => PatientList.string_key k a = PatientList.string_key k b
      end.
Proof.
  assert (Hs : forall x y : string, String.compare x y = Eq <-> x = y).
  { intros x y. split; [apply String.compare_eq_iff |].
    intros ->. pose proof (String.compare_antisym y y) as H.
    now destruct (String.compare y y). }
  rewrite key_order_keys.
  destruct k; simpl; try apply Hs. apply Z.compare_eq_iff.
Qed.

Lemma tied_key_order (k : PatientList.SortKey) (d : PatientList.SortDir)
    (a x : PatientList.Patient) :
  PatientList.tied k d a x = true <-> PatientList.key_order k a x = Eq.
Proof.
  unfold PatientList.tied. rewrite compareFn_key_order, Z.eqb_eq.
  destruct d, (PatientList.key_order k a x); simpl; split; intros H;
    first [reflexivity | discriminate H | lia].
Qed.

Lemma key_order_Eq_trans (k : PatientList.SortKey) (a x y : PatientList.Patient) :
  PatientList.key_order k a x = Eq -> PatientList.key_order k a y = Eq ->
  PatientList.key_order k x y = Eq.
Proof.
  rewrite !key_order_Eq_iff. destruct k; congruence.
Qed.

Lemma untied_filter_short (k : PatientList.SortKey) (d : PatientList.SortDir)
    (a : PatientList.Patient) (l : list PatientList.Patient) :
  ForallOrdPairs (fun x y => PatientList.key_order k x y <> Eq) l ->
  (List.length (List.filter (PatientList.tied k d a) l) <= 1)%nat.
Proof.
  induction 1 as [|x l Hx _ IH]; [simpl; lia |].
  cbn [List.filter]. destruct (PatientList.tied k d a x) eqn:Ex; [| exact IH].
  assert (Hnone : List.filter (PatientList.tied k d a) l = []).
  { destruct (List.filter (PatientList.tied k d a) l) as [|y ys] eqn:Ef;
      [reflexivity |].
    assert (Hy : In y (List.filter (PatientList.tied k d a) l))
      by (rewrite Ef; now left).
    apply filter_In in Hy. destruct Hy as [Hin Hy].
    rewrite List.Forall_forall in Hx. exfalso. apply (Hx y Hin).
    apply tied_key_order in Ex, Hy. now apply (key_order_Eq_trans k a). }
  rewrite Hnone. simpl. lia.
Qed.

(** X19. When no two rows have equal sort keys, the descending order is
    the ascending order read backwards.  (With equal keys it is not:
    tied rows keep their input order in both directions.) *)
Theorem descending_reverses_ascending :
  forall (k : PatientList.SortKey) (l : list PatientList.Patient),
    ForallOrdPairs (fun x y => PatientList.key_order k x y <> Eq) l ->
    PatientList.sortBy k PatientList.desc l
    = rev (PatientList.sortBy k PatientList.asc l).
Proof.
  intros k l Huntied. symmetry. apply sortBy_unique.
  - rewrite <- Permutation_rev. apply sort_perm.
  - apply (StronglySorted_weaken
             (fun a b => (PatientList.compareFn k PatientList.asc b a <= 0)%Z)).
    + intros a b. rewrite !compareFn_le. trivial.
    + apply StronglySorted_rev, sortBy_sorted.
  - intros a. apply short_Permutation_eq.
    + etransitivity; [| apply (untied_filter_short k PatientList.desc a l Huntied)].
      apply Nat.eq_le_incl, Permutation_length, filter_Permutation.
      rewrite <- Permutation_rev. apply sort_perm.
    + apply filter_Permutation. rewrite <- Permutation_rev. apply sort_perm.
Qed.

Lemma descending_reverses_ascending_witness :
  let mk := fun (nm : string) (ag : option Z) =>
    {| PatientList.patient_id := None; PatientList.first_name := nm;
       PatientList.last_name := "Doe"; PatientList.age := ag;
       PatientList.wireless_phone := None; PatientList.home_phone := None;
       PatientList.work_phone := None; PatientList.address := None;
       PatientList.city := None; PatientList.status := None |} in
  PatientList.sortBy PatientList.K_age PatientList.desc
    [mk "Ann" (Some 40%Z); mk "Bob" None; mk "Eve" (Some 7%Z)]
  = rev (PatientList.sortBy PatientList.K_age PatientList.asc
           [mk "Ann" (Some 40%Z); mk "Bob" None; mk "Eve" (Some 7%Z)]).
Proof.
  intros mk. apply descending_reverses_ascending.
  repeat constructor; intros H; discriminate H.
Defined.
